(** * PandaExpressPOS: order composition and checkout pipeline

    A shallow embedding of the self-service ordering flow of the Vue client:
    the [Plate], [ALaCarte] and [Appetizer] menu components (selection rules
    and pricing), and the root [App] component (cart, transaction cart and
    [completeOrder]).

    Conventions of the embedding.
    - A JavaScript array is a [list]; [push] appends at the end.
    - A nullable field is an [option]; [None] is [null].
    - Identifiers returned by the API (item ids, food ids, transaction ids)
      are integers in [Z]; prices are JavaScript numbers read as exact
      rationals in [Q].
    - The one place where binary64 rounding decides the outcome,
      [Math.floor(Math.random() * 6) + 5], is modelled on the bits of the
      double (module [Binary64]).
    - An HTTP call is answered by an oracle: a record of functions giving,
      for every request, its response or its failure.  Component methods
      return the new component state and the list of effects they produced
      (events emitted to the parent, requests, alerts). *)

From Stdlib Require Import List String Ascii Bool Arith ZArith QArith Lia.
Import ListNotations.

Set Implicit Arguments.

Close Scope Q_scope.
Open Scope string_scope.
Open Scope list_scope.

(** ** JavaScript values and array helpers *)

Module Js.

(** A menu item as the API delivers it: either a plain string or an object
    carrying a [name] property.  Objects are compared by reference ([===],
    [Array.prototype.includes]), so an object carries the reference [ref];
    an empty [oname] stands for a missing or empty [name] property, both of
    which are falsy. *)
Inductive Item : Type :=
| ItemStr (s : string)
| ItemObj (ref : nat) (oname : string).

Definition Item_eq_dec (a b : Item) : {a = b} + {a <> b}.
Proof.
  decide equality; first [apply string_dec | apply Nat.eq_dec].
Defined.

(** [a === b] on items. *)
Definition strict_eq (a b : Item) : bool :=
  if Item_eq_dec a b then true else false.

(** [a === b] where [a] may be [null]. *)
Definition strict_eq_null (a : option Item) (b : Item) : bool :=
  match a with
  | None => false
  | Some x => strict_eq x b
  end.

Definition truthy_string (s : string) : bool :=
  negb (String.eqb s EmptyString).

(** Truthiness of a nullable item: [null] and the empty string are falsy,
    every object is truthy. *)
Definition truthy (v : option Item) : bool :=
  match v with
  | None => false
  | Some (ItemStr s) => truthy_string s
  | Some (ItemObj _ _) => true
  end.

(** [arr.includes(x)] on an array of items. *)
Definition includes (x : Item) (arr : list Item) : bool :=
  existsb (fun y => strict_eq y x) arr.

(** [arr.includes(s)] on an array of strings. *)
Definition includes_string (s : string) (arr : list string) : bool :=
  existsb (String.eqb s) arr.

(** [s.includes(pat)]: [pat] occurs in [s] as a substring. *)
Fixpoint str_includes (s pat : string) : bool :=
  String.prefix pat s ||
  match s with
  | EmptyString => false
  | String _ rest => str_includes rest pat
  end.

(** [arr.splice(index, 1)]: removes the element at [index]; nothing happens
    when [index] is past the end. *)
Definition splice1 {A : Type} (index : nat) (arr : list A) : list A :=
  firstn index arr ++ skipn (S index) arr.

(** [arr.findIndex(p)], with [None] for [-1]. *)
Fixpoint findIndex {A : Type} (p : A -> bool) (arr : list A) : option nat :=
  match arr with
  | [] => None
  | x :: rest =>
      if p x then Some 0
      else match findIndex p rest with
           | Some i => Some (S i)
           | None => None
           end
  end.

(** [arr[index] = v] for an index inside the array. *)
Fixpoint set_nth {A : Type} (index : nat) (v : A) (arr : list A) : list A :=
  match arr, index with
  | [], _ => []
  | _ :: rest, 0 => v :: rest
  | x :: rest, S i => x :: set_nth i v rest
  end.

(** [Number(v)] for a nullable number: [null] converts to [0]. *)
Definition to_number (v : option Q) : Q :=
  match v with
  | None => 0%Q
  | Some q => q
  end.

End Js.

(** ** Data shared by the components *)

(** The array [[baseItemID, food1, food2, food3, food4]]: every producer in
    the client builds it as a literal of exactly five slots.  The first slot
    is [null] when the base item id of a size has not been fetched. *)
Record TransactionEntry : Type := mkEntry {
  baseItemID : option Z;
  food1 : Z;
  food2 : Z;
  food3 : Z;
  food4 : Z
}.

(** The object pushed on the cart.  [isPremium] and [size] are absent on the
    lines of some components. *)
Record CartLine : Type := mkLine {
  name : string;
  price : option Q;
  transactionEntry : TransactionEntry;
  isPremium : option bool;
  size : option string
}.

(** The argument of the [addToCart] event: one line, or an array of lines. *)
Inductive Payload : Type :=
| Single (line : CartLine)
| Batch (lines : list CartLine).

Inductive Effect : Type :=
| Emit_addToCart (p : Payload)
| Emit_addToTransactionCart (e : TransactionEntry)
| ConsoleError (msg : string)
| Alert (msg : string).

(** Responses of the catalogue endpoints [itemid/<name>] and
    [foodid/<name>]; [None] is a rejected request. *)
Record Catalogue : Type := mkCatalogue {
  itemid : string -> option Z;
  foodid : string -> option Z
}.

(** [Promise.all] over a list of responses: rejected as soon as one is. *)
Fixpoint promise_all {A : Type} (rs : list (option A)) : option (list A) :=
  match rs with
  | [] => Some []
  | None :: _ => None
  | Some x :: rest =>
      match promise_all rest with
      | Some xs => Some (x :: xs)
      | None => None
      end
  end.

(** ** Plate.vue *)

Module Plate.
Import Js.

Record State : Type := mkState {
  sides : list Item;
  entrees : list Item;
  price : option Q;
  selectedSide : option Item;
  selectedEntrees : list Item;
  premiumEntrees : list string
}.

Definition set_selectedSide (v : option Item) (st : State) : State :=
  mkState (sides st) (entrees st) (price st) v (selectedEntrees st)
          (premiumEntrees st).

Definition set_selectedEntrees (v : list Item) (st : State) : State :=
  mkState (sides st) (entrees st) (price st) (selectedSide st) v
          (premiumEntrees st).

Definition canAddToCart (st : State) : bool :=
  truthy (selectedSide st) && (List.length (selectedEntrees st) =? 2)%nat.

Definition selectSide (side : Item) (st : State) : State :=
  set_selectedSide
    (if strict_eq_null (selectedSide st) side then None else Some side) st.

Definition selectEntree (entree : Item) (st : State) : State :=
  if includes entree (selectedEntrees st) then
    set_selectedEntrees
      (filter (fun item => negb (strict_eq item entree)) (selectedEntrees st))
      st
  else if (List.length (selectedEntrees st) <? 2)%nat then
    set_selectedEntrees (selectedEntrees st ++ [entree]) st
  else st.

Definition getSideName (side : option Item) : string :=
  match side with
  | Some (ItemStr s) => s
  | Some (ItemObj _ n) => if truthy_string n then n else "Unknown Side"
  | None => "Unknown Side"
  end.

Definition getEntreeName (entree : option Item) : string :=
  match entree with
  | Some (ItemStr s) => s
  | Some (ItemObj _ n) => if truthy_string n then n else "Unknown Entree"
  | None => "Unknown Entree"
  end.

Definition isPremium (st : State) (entree : Item) : bool :=
  includes_string (getEntreeName (Some entree)) (premiumEntrees st).

(** The [forEach] loop of [addToCart] that counts the premium entrees. *)
Definition premiumCount (st : State) : nat :=
  fold_left (fun count entree => if isPremium st entree then S count else count)
            (selectedEntrees st) 0%nat.

(** [entreeNames.join(', ')] *)
Fixpoint join (sep : string) (l : list string) : string :=
  match l with
  | [] => ""
  | [x] => x
  | x :: rest => (x ++ sep ++ join sep rest)%string
  end.

(** [addToCart]: fetches the base item id of "Plate", then the food ids of
    the side and of the entrees, and emits the line and its transaction
    entry from the same callback.  [price += premiumCount * 1.5] converts a
    [null] price to [0]. *)
Definition addToCart (api : Catalogue) (st : State) : State * list Effect :=
  if canAddToCart st then
    match itemid api "Plate" with
    | None =>
        (st, [ConsoleError "Error fetching base item ID:";
              Alert "Cannot fetch base item ID."])
    | Some baseItemID =>
        let price' :=
          (to_number (price st)
           + inject_Z (Z.of_nat (premiumCount st)) * (3 # 2))%Q in
        let sideName := getSideName (selectedSide st) in
        let entreeNames :=
          map (fun entree => getEntreeName (Some entree)) (selectedEntrees st) in
        match promise_all (map (foodid api) (sideName :: entreeNames)) with
        | Some (sideFoodID :: entreeFoodID1 :: entreeFoodID2 :: _) =>
            let transactionEntry :=
              mkEntry (Some baseItemID) sideFoodID entreeFoodID1 entreeFoodID2 0 in
            let item :=
              mkLine ("Plate (" ++ sideName ++ " + "
                        ++ join ", " entreeNames ++ ")")%string
                     (Some price')
                     transactionEntry
                     (Some (0 <? premiumCount st)%nat)
                     None in
            (set_selectedEntrees [] (set_selectedSide None st),
             [Emit_addToCart (Single item);
              Emit_addToTransactionCart transactionEntry])
        | _ =>
            (st, [ConsoleError "Error fetching food IDs:";
                  Alert "Cannot add to transaction cart."])
        end
    end
  else (st, []).

(** The state of a freshly mounted component once the menu, the price and
    the premium list have been fetched. *)
Definition mounted (sides entrees : list Item) (price : option Q)
           (premium : list string) : State :=
  mkState sides entrees price None [] premium.

End Plate.

(** ** ALaCarte.vue *)

Module ALaCarte.
Import Js.

(** The strings ['side'] and ['entree'] passed around as [type]. *)
Inductive ItemType : Type :=
| side
| entree.

(** An element of [sizeOptions.side] or [sizeOptions.entree]. *)
Record SizeOption : Type := mkSize {
  size_name : string;
  size_price : option Q;
  size_baseItemID : option Z
}.

Record State : Type := mkState {
  sides : list Item;
  entrees : list Item;
  selectedSides : list CartLine;
  selectedEntrees : list CartLine;
  showSizeModal : bool;
  currentItem : option Item;
  currentItemType : option ItemType;
  sizeOptions_side : list SizeOption;
  sizeOptions_entree : list SizeOption;
  premiumEntrees : list string
}.

(** [premiumPrices[size]]: [None] for a key that the object does not
    have. *)
Definition premiumPrices (size : string) : option Q :=
  if String.eqb size "Small" then Some (67 # 10)%Q
  else if String.eqb size "Medium" then Some (23 # 2)%Q
  else if String.eqb size "Large" then Some (157 # 10)%Q
  else None.

(** The state set up by [data()]. *)
Definition data : State :=
  mkState [] [] [] [] false None None
          [mkSize "Medium" None None; mkSize "Large" None None]
          [mkSize "Small" None None; mkSize "Medium" None None;
           mkSize "Large" None None]
          [].

Definition canAddToCart (st : State) : bool :=
  (0 <? List.length (selectedSides st))%nat
  || (0 <? List.length (selectedEntrees st))%nat.

Definition getSideName (item : option Item) : string :=
  match item with
  | Some (ItemStr s) => s
  | Some (ItemObj _ n) => if truthy_string n then n else "Unknown Side"
  | None => "Unknown Side"
  end.

Definition getEntreeName (item : option Item) : string :=
  match item with
  | Some (ItemStr s) => s
  | Some (ItemObj _ n) => if truthy_string n then n else "Unknown Entree"
  | None => "Unknown Entree"
  end.

(** The name under which [selectSize] looks an item up and labels it. *)
Definition typedName (type : ItemType) (item : option Item) : string :=
  match type with
  | side => getSideName item
  | entree => getEntreeName item
  end.

Definition selectedList (type : ItemType) (st : State) : list CartLine :=
  match type with
  | side => selectedSides st
  | entree => selectedEntrees st
  end.

Definition set_selectedList (type : ItemType) (l : list CartLine)
           (st : State) : State :=
  match type with
  | side =>
      mkState (sides st) (entrees st) l (selectedEntrees st)
              (showSizeModal st) (currentItem st) (currentItemType st)
              (sizeOptions_side st) (sizeOptions_entree st) (premiumEntrees st)
  | entree =>
      mkState (sides st) (entrees st) (selectedSides st) l
              (showSizeModal st) (currentItem st) (currentItemType st)
              (sizeOptions_side st) (sizeOptions_entree st) (premiumEntrees st)
  end.

(** [showSizeModal], [currentItem] and [currentItemType] assigned at once. *)
Definition set_modal (shown : bool) (item : option Item)
           (type : option ItemType) (st : State) : State :=
  mkState (sides st) (entrees st) (selectedSides st) (selectedEntrees st)
          shown item type
          (sizeOptions_side st) (sizeOptions_entree st) (premiumEntrees st).

(** [toggleSides] and [toggleEntrees] only open the size dialog. *)
Definition toggleSides (item : Item) (st : State) : State :=
  set_modal true (Some item) (Some side) st.

Definition toggleEntrees (item : Item) (st : State) : State :=
  set_modal true (Some item) (Some entree) st.

Definition cancelSizeSelection (st : State) : State :=
  set_modal false None (currentItemType st) st.

Definition isPremium (st : State) (item : option Item) : bool :=
  includes_string (getEntreeName item) (premiumEntrees st).

(** [getSideName(item) || getEntreeName(item)] *)
Definition displayName (item : option Item) : string :=
  if truthy_string (getSideName item) then getSideName item
  else getEntreeName item.

Definition isSelected (item : Item) (type : ItemType) (st : State) : bool :=
  existsb (fun selected => str_includes (name selected) (displayName (Some item)))
          (selectedList type st).

(** [getFoodID]: the name is chosen by [currentItemType], not by the
    [type] argument of the caller. *)
Definition getFoodID (api : Catalogue) (st : State) (item : option Item)
  : option Z :=
  foodid api
         (match currentItemType st with
          | Some side => getSideName item
          | _ => getEntreeName item
          end).

Definition is_entree (type : ItemType) : bool :=
  match type with
  | entree => true
  | side => false
  end.

(** The template literal [`${prefix}: ${itemName} (${size})`]. *)
Definition label (type : ItemType) (itemName : string) (size : string)
  : string :=
  ((match type with side => "Side" | entree => "Entree" end)
     ++ ": " ++ itemName ++ " (" ++ size ++ ")")%string.

(** The price [selectSize] puts on the line. *)
Definition linePrice (st : State) (sz : SizeOption) (type : ItemType)
  : option Q :=
  if is_entree type && isPremium st (currentItem st)
  then premiumPrices (size_name sz)
  else size_price sz.

Definition selectSize (api : Catalogue) (sz : SizeOption) (type : ItemType)
           (st : State) : State * list Effect :=
  let existingItemIndex :=
    findIndex (fun item =>
                 str_includes (name item) (typedName type (currentItem st)))
              (selectedList type st) in
  match getFoodID api st (currentItem st) with
  | None =>
      (st, [ConsoleError "Error fetching foodID for item:";
            ConsoleError "Error selecting size:"])
  | Some foodID =>
      let transactionEntry := mkEntry (size_baseItemID sz) foodID 0 0 0 in
      let itemToAdd :=
        mkLine (label type (typedName type (currentItem st)) (size_name sz))
               (linePrice st sz type)
               transactionEntry
               (Some (isPremium st (currentItem st)))
               (Some (size_name sz)) in
      let selectedList' :=
        match existingItemIndex with
        | Some i => set_nth i itemToAdd (selectedList type st)
        | None => selectedList type st ++ [itemToAdd]
        end in
      (set_modal false None None (set_selectedList type selectedList' st), [])
  end.

Definition addToCart (st : State) : State * list Effect :=
  if canAddToCart st then
    let itemsToAdd := selectedSides st ++ selectedEntrees st in
    (set_selectedList entree [] (set_selectedList side [] st),
     flat_map (fun item =>
                 [Emit_addToCart (Single item);
                  Emit_addToTransactionCart (transactionEntry item)])
              itemsToAdd)
  else (st, []).

(** A click on an item of the grid followed by a click on a size of the
    dialog it opens; the dialog shows the sizes of [currentItemType], so
    [selectSize] is called with the type the toggle has just set. *)
Definition pick (api : Catalogue) (type : ItemType) (item : Item)
           (sz : SizeOption) (st : State) : State :=
  fst (selectSize api sz type
                  (match type with
                   | side => toggleSides item st
                   | entree => toggleEntrees item st
                   end)).

Definition picks (api : Catalogue) (type : ItemType)
           (l : list (Item * SizeOption)) (st : State) : State :=
  fold_left (fun s p => pick api type (fst p) (snd p) s) l st.

(** No name of the menu occurs inside the label of another name of the
    menu, whatever the size. *)
Definition unambiguous (type : ItemType) (menu sizes : list string) : bool :=
  forallb (fun a =>
             forallb (fun b =>
                        forallb (fun sz =>
                                   implb (str_includes (label type b sz) a)
                                         (String.eqb a b))
                                sizes)
                     menu)
          menu.

(** The names that have an entry after a series of picks, in the order
    of their first pick; a pick whose food id lookup fails adds none. *)
Definition pickedNames (api : Catalogue) (type : ItemType)
           (l : list (Item * SizeOption)) (names : list string)
  : list string :=
  fold_left (fun ns p =>
               let a := typedName type (Some (fst p)) in
               match foodid api a with
               | Some _ => if includes_string a ns then ns else ns ++ [a]
               | None => ns
               end)
            l names.

(** [line] is an entry of the item named [n]: its label is the one of
    [n] at the size that the line records, one of [sizes]. *)
Definition entryOf (type : ItemType) (sizes : list string)
           (line : CartLine) (n : string) : Prop :=
  exists sz,
    In sz sizes /\ size line = Some sz /\ name line = label type n sz.

(** Every pick is of an item of the menu at one of the sizes. *)
Definition fromMenu (type : ItemType) (menu sizes : list string)
           (l : list (Item * SizeOption)) : bool :=
  forallb (fun p =>
             includes_string (typedName type (Some (fst p))) menu
             && includes_string (size_name (snd p)) sizes)
          l.

(** The type whose list a [selectSize] of [type] does not write. *)
Definition otherType (type : ItemType) : ItemType :=
  match type with
  | side => entree
  | entree => side
  end.

(** [getSelectedSize]: the size of the first entry whose label contains the
    name of the item, [null] when there is none. *)
Definition getSelectedSize (item : Item) (type : ItemType) (st : State)
  : option string :=
  match find (fun selected =>
                str_includes (name selected) (typedName type (Some item)))
             (selectedList type st) with
  | Some selectedItem => size selectedItem
  | None => None
  end.

(** [type.charAt(0).toUpperCase() + type.slice(1)] *)
Definition capitalized (type : ItemType) : string :=
  match type with
  | side => "Side"
  | entree => "Entree"
  end.

Definition set_price (p : Q) (sz : SizeOption) : SizeOption :=
  mkSize (size_name sz) (Some p) (size_baseItemID sz).

(** The inner loop of [fetchItemPrices] over the sizes of one type, with
    [prices] answering [price/<name>] ([None]: rejected).  It returns the
    sizes as the loop leaves them and whether it ran to its end; a rejected
    request leaves the loop, and the function, at once. *)
Fixpoint fetchPricesOf (prices : string -> option Q) (type : ItemType)
         (sizes : list SizeOption) : list SizeOption * bool :=
  match sizes with
  | [] => ([], true)
  | sz :: rest =>
      match prices (size_name sz ++ " " ++ capitalized type)%string with
      | None => (sz :: rest, false)
      | Some p =>
          let r := fetchPricesOf prices type rest in
          (set_price p sz :: fst r, snd r)
      end
  end.

Definition set_sizeOptions (s e : list SizeOption) (st : State) : State :=
  mkState (sides st) (entrees st) (selectedSides st) (selectedEntrees st)
          (showSizeModal st) (currentItem st) (currentItemType st)
          s e (premiumEntrees st).

Definition fetchItemPrices (prices : string -> option Q) (st : State)
  : State * list Effect :=
  let s := fetchPricesOf prices side (sizeOptions_side st) in
  if snd s then
    let e := fetchPricesOf prices entree (sizeOptions_entree st) in
    (set_sizeOptions (fst s) (fst e) st,
     if snd e then [] else [ConsoleError "Error fetching item prices:"])
  else
    (set_sizeOptions (fst s) (sizeOptions_entree st) st,
     [ConsoleError "Error fetching item prices:"]).

(** *** The selection keyed by item name

    What [selectSize] is written to do, stated on names: the object it
    builds for a pick, and a list with one entry per item name in which a
    pick replaces the entry of its name where it stands, or is appended
    when the name has none. *)

(** The object [selectSize] builds for [item] at [sz] once the food id [f]
    is known; [premium] is the premium list of the component. *)
Definition lineOf (premium : list string) (type : ItemType) (item : Item)
           (sz : SizeOption) (f : Z) : CartLine :=
  mkLine (label type (typedName type (Some item)) (size_name sz))
         (if is_entree type
             && includes_string (getEntreeName (Some item)) premium
          then premiumPrices (size_name sz)
          else size_price sz)
         (mkEntry (size_baseItemID sz) f 0 0 0)
         (Some (includes_string (getEntreeName (Some item)) premium))
         (Some (size_name sz)).

(** Replace the entry of the name [a] where it stands, or append one. *)
Fixpoint upsert (a : string) (line : CartLine)
         (l : list (string * CartLine)) : list (string * CartLine) :=
  match l with
  | [] => [(a, line)]
  | (b, x) :: rest =>
      if String.eqb a b then (a, line) :: rest
      else (b, x) :: upsert a line rest
  end.

(** The name-keyed selection after a series of picks; a pick whose food
    id lookup is rejected changes nothing. *)
Definition upserted (api : Catalogue) (premium : list string)
           (type : ItemType) (l : list (Item * SizeOption))
           (acc : list (string * CartLine)) : list (string * CartLine) :=
  fold_left (fun acc p =>
               let a := typedName type (Some (fst p)) in
               match foodid api a with
               | Some f => upsert a (lineOf premium type (fst p) (snd p) f) acc
               | None => acc
               end)
            l acc.

End ALaCarte.

(** ** Appetizer.vue *)

Module Appetizer.
Import Js.

Record State : Type := mkState {
  appetizers : list Item;
  selectedAppetizers : list Item;
  price : option Q
}.

Definition set_selectedAppetizers (v : list Item) (st : State) : State :=
  mkState (appetizers st) v (price st).

Definition canAddToCart (st : State) : bool :=
  (0 <? List.length (selectedAppetizers st))%nat.

(** [toggleAppetizer]: [indexOf] then [splice(index, 1)], or [push]. *)
Definition toggleAppetizer (appetizer : Item) (st : State) : State :=
  match findIndex (fun x => strict_eq x appetizer) (selectedAppetizers st) with
  | Some index =>
      set_selectedAppetizers (splice1 index (selectedAppetizers st)) st
  | None =>
      set_selectedAppetizers (selectedAppetizers st ++ [appetizer]) st
  end.

Definition isSelected (appetizer : Item) (st : State) : bool :=
  includes appetizer (selectedAppetizers st).

Definition getAppetizerName (appetizer : Item) : string :=
  match appetizer with
  | ItemStr s => s
  | ItemObj _ n => if truthy_string n then n else "Unknown Appetizer"
  end.

(** [addToCart] builds one line and one transaction entry per selected
    appetizer.  The lines go to the parent as a single array; of the
    entries only [transactionEntries[0]] is emitted.  [transactionEntries]
    is as long as [selectedAppetizers], which is not empty under
    [canAddToCart], so the index [0] always exists there. *)
Definition addToCart (api : Catalogue) (st : State) : State * list Effect :=
  if canAddToCart st then
    match itemid api "Appetizer" with
    | None =>
        (st, [ConsoleError "Error fetching base item ID:";
              Alert "Cannot fetch base item ID."])
    | Some baseItemID =>
        match promise_all
                (map (fun appetizer => foodid api (getAppetizerName appetizer))
                     (selectedAppetizers st)) with
        | None =>
            (st, [ConsoleError "Error fetching food IDs:";
                  Alert "Cannot add to transaction cart."])
        | Some appetizerResponses =>
            let transactionEntries :=
              map (fun appetizerID => mkEntry (Some baseItemID) appetizerID 0 0 0)
                  appetizerResponses in
            let itemsToAdd :=
              map (fun '(appetizer, entry) =>
                     mkLine ("Appetizer: " ++ getAppetizerName appetizer)%string
                            (price st) entry None None)
                  (combine (selectedAppetizers st) transactionEntries) in
            (set_selectedAppetizers [] st,
             Emit_addToCart (Batch itemsToAdd)
               :: match transactionEntries with
                  | first :: _ => [Emit_addToTransactionCart first]
                  | [] => []
                  end)
        end
    end
  else (st, []).

End Appetizer.

(** ** Binary64 arithmetic of [Math.floor(Math.random() * 6) + 5] *)

Module Binary64.
Open Scope Z_scope.

(** A value of [Math.random()]: a double in [[0, 1)].  Every such double is
    [m / 2^k] for a significand [m] below [2^53] and an exponent [k] of at
    most 1074 (the smallest subnormal is [2^-1074]); the pair [(m, k)]
    stands for that double. *)
Definition is_draw (m k : Z) : bool :=
  (0 <=? m) && (m <? 2 ^ 53) && (0 <=? k) && (k <=? 1074) && (m <? 2 ^ k).

(** The number of low bits that do not fit a 53-bit significand. *)
Definition excess_bits (n : Z) : Z :=
  Z.max 0 (Z.log2 n + 1 - 53).

(** Round to nearest, ties to even, dropping the [d] low bits of [n]. *)
Definition round_even (n d : Z) : Z :=
  let q := n / 2 ^ d in
  let r := n mod 2 ^ d in
  if (2 * r >? 2 ^ d) || ((2 * r =? 2 ^ d) && Z.odd q) then q + 1 else q.

(** [x * 6] for [x = m / 2^k]: the double nearest to the exact product,
    returned as a numerator over [2^k].  The product is below 6, so it
    neither overflows nor leaves the exponent range of [x]. *)
Definition times6 (m : Z) : Z :=
  let n := 6 * m in
  let d := excess_bits n in
  round_even n d * 2 ^ d.

(** [Math.floor(y)] for [y = v / 2^k]. *)
Definition floor (v k : Z) : Z := v / 2 ^ k.

(** [Math.floor(Math.random() * 6) + 5] for the draw [(m, k)]; the sum of
    two small integers is exact. *)
Definition randomMinutes (m k : Z) : Z :=
  floor (times6 m) k + 5.

End Binary64.

(** ** App.vue *)

Module App.
Import Js.

(** The fields of [data()] that the cart and [completeOrder] use.  Instants
    are milliseconds on the local clock; [readyTime] holds the instant
    whose time of day the page prints, [None] for the initial ['']. *)
Record State : Type := mkState {
  cartItems : list CartLine;
  transactionCart : list TransactionEntry;
  cartTotal : Q;
  transactionId : option Z;
  readyTime : option Z;
  showUserInfo : bool;
  isOrderComplete : bool;
  selectedPayment : option string;
  employeeID : option Z
}.

Definition data (employee : option Z) : State :=
  mkState [] [] 0%Q None None false false None employee.

Definition set_carts (items : list CartLine) (entries : list TransactionEntry)
           (st : State) : State :=
  mkState items entries (cartTotal st) (transactionId st) (readyTime st)
          (showUserInfo st) (isOrderComplete st) (selectedPayment st)
          (employeeID st).

Definition set_transactionId (v : option Z) (st : State) : State :=
  mkState (cartItems st) (transactionCart st) (cartTotal st) v (readyTime st)
          (showUserInfo st) (isOrderComplete st) (selectedPayment st)
          (employeeID st).

Definition updatePaymentMethod (paymentMethod : option string) (st : State)
  : State :=
  mkState (cartItems st) (transactionCart st) (cartTotal st)
          (transactionId st) (readyTime st) (showUserInfo st)
          (isOrderComplete st) paymentMethod (employeeID st).

(** The three assignments that end a line's chain in [completeOrder]. *)
Definition set_complete (ready : Z) (st : State) : State :=
  mkState (cartItems st) (transactionCart st) (cartTotal st)
          (transactionId st) (Some ready) false true (selectedPayment st)
          (employeeID st).

Definition removeFromCart (index : nat) (st : State) : State :=
  set_carts (splice1 index (cartItems st))
            (splice1 index (transactionCart st)) st.

Definition clearCart (st : State) : State := set_carts [] [] st.

Definition clearOrder (st : State) : State := set_carts [] [] st.

(** [Array.isArray(item) ? push(...item) : push(item)] *)
Definition addToCart (item : Payload) (st : State) : State :=
  match item with
  | Batch lines => set_carts (cartItems st ++ lines) (transactionCart st) st
  | Single line => set_carts (cartItems st ++ [line]) (transactionCart st) st
  end.

Definition addToTransactionCart (entry : TransactionEntry) (st : State)
  : State :=
  set_carts (cartItems st) (transactionCart st ++ [entry]) st.

(** The listeners [@addToCart] and [@addToTransactionCart] on the menu
    components; what a component logs or alerts does not reach the root. *)
Definition handle (st : State) (e : Effect) : State :=
  match e with
  | Emit_addToCart item => addToCart item st
  | Emit_addToTransactionCart entry => addToTransactionCart entry st
  | ConsoleError _ => st
  | Alert _ => st
  end.

Definition dispatch (effects : list Effect) (st : State) : State :=
  fold_left handle effects st.

(** [calculateReadyTime]: [setMinutes(getMinutes() + randomMinutes)] moves
    the local clock forward by that many minutes. *)
Definition calculateReadyTime (now : Z) (m k : Z) : Z :=
  (now + 60000 * Binary64.randomMinutes m k)%Z.

(** *** completeOrder *)

Inductive Request : Type :=
| GetLatestID
| PostTransaction (transactionID : Z) (employee : option Z) (total : Q)
                  (paymentMethod : string)
| GetSubtractItemTypes (itemid : option Z)
| PostTransactionItems (transactionID : Z) (itemid : option Z)
                       (f1 f2 f3 f4 : Z)
| GetSubtract (foodid : Z).

(** The requests that change what the server stores. *)
Definition persists (r : Request) : bool :=
  match r with
  | GetLatestID => false
  | _ => true
  end.

(** What the outer [catch] receives. *)
Inductive Thrown : Type :=
| Error (message : string)
| Rejected (r : Request).

(** The answers of the server and of the environment during one run:
    the latest-id read ([None] when rejected), whether the header is
    accepted, whether the line of each index is accepted, and the clock
    and the random draw seen when the chain of that line settles. *)
Record World : Type := mkWorld {
  latestID : option Z;
  transactionAccepted : bool;
  itemAccepted : nat -> bool;
  clock : nat -> Z;
  draw : nat -> Z * Z
}.

Record Outcome : Type := mkOutcome {
  final : State;
  requests : list Request;
  thrown : option Thrown;
  effects : list Effect
}.

(** [!this.selectedPayment] is false exactly for a non-empty string. *)
Definition payment_selected (p : option string) : bool :=
  match p with
  | None => false
  | Some s => truthy_string s
  end.

(** [String(this.selectedPayment)] *)
Definition to_String (p : option string) : string :=
  match p with
  | None => "null"
  | Some s => s
  end.

(** The [foodids] array of a line: the slots that are [!= 0], in order. *)
Definition foodids (e : TransactionEntry) : list Z :=
  filter (fun f => negb (f =? 0)%Z) [food1 e; food2 e; food3 e; food4 e].

(** The two requests issued for a line inside the loop. *)
Definition lineRequests (id : Z) (e : TransactionEntry) : list Request :=
  [GetSubtractItemTypes (baseItemID e);
   PostTransactionItems id (baseItemID e)
                        (food1 e) (food2 e) (food3 e) (food4 e)].

(** The requests issued when the [transactionitems] post of line [i]
    settles. *)
Definition settledRequests (w : World) (i : nat) (e : TransactionEntry)
  : list Request :=
  if itemAccepted w i then map GetSubtract (foodids e) else [].

Definition settledEffects (w : World) (i : nat) : list Effect :=
  if itemAccepted w i then []
  else [ConsoleError "Error adding to transactionitems table"].

Definition settle (w : World) (st : State) (i : nat) : State :=
  if itemAccepted w i
  then set_complete (calculateReadyTime (clock w i) (fst (draw w i))
                                        (snd (draw w i))) st
  else st.

(** [l] with the index of each element. *)
Definition indexed {A : Type} (l : list A) : list (nat * A) :=
  combine (seq 0 (List.length l)) l.

Definition failure (st : State) (rs : list Request) (t : Thrown) : Outcome :=
  mkOutcome st rs (Some t)
            [ConsoleError "Error processing order:";
             Alert "There was an error processing your order. Please try again."].

(** The loop of the header's callback issues the two requests of every
    line before any answer arrives; answers are then handled in the order
    of the requests. *)
Definition completeOrder (w : World) (st : State) : Outcome :=
  match latestID w with
  | None => failure st [GetLatestID] (Rejected GetLatestID)
  | Some id =>
      let st1 := set_transactionId (Some id) st in
      if payment_selected (selectedPayment st1) then
        let header :=
          PostTransaction id (employeeID st1) (cartTotal st1)
                          (to_String (selectedPayment st1)) in
        if transactionAccepted w then
          let lines := indexed (transactionCart st1) in
          mkOutcome
            (fold_left (fun s ie => settle w s (fst ie)) lines st1)
            ([GetLatestID; header]
               ++ flat_map (fun ie => lineRequests id (snd ie)) lines
               ++ flat_map (fun ie => settledRequests w (fst ie) (snd ie))
                           lines)
            None
            (flat_map (fun ie => settledEffects w (fst ie)) lines)
        else
          mkOutcome st1 [GetLatestID; header] None
                    [ConsoleError "Error adding to transaction table"]
      else
        failure st1 [GetLatestID] (Error "Payment method is not selected.")
  end.

(** *** Vocabulary of the properties *)

(** The entry at each index is the one built with the line at that
    index. *)
Definition aligned (st : State) : Prop :=
  map transactionEntry (cartItems st) = transactionCart st.

(** The [transactionID] parameter of a request that has one. *)
Definition transactionID_of (r : Request) : option Z :=
  match r with
  | PostTransaction id _ _ _ => Some id
  | PostTransactionItems id _ _ _ _ _ => Some id
  | _ => None
  end.

Definition isItemTypeDecrement (r : Request) : bool :=
  match r with
  | GetSubtractItemTypes _ => true
  | _ => false
  end.

Definition isFoodDecrement (r : Request) : bool :=
  match r with
  | GetSubtract _ => true
  | _ => false
  end.

Definition isLinePost (r : Request) : bool :=
  match r with
  | PostTransactionItems _ _ _ _ _ _ => true
  | _ => false
  end.

End App.

(** * Properties *)

(** ** Helper lemmas on the JavaScript operations *)

Lemma strict_eq_true (a b : Js.Item) : Js.strict_eq a b = true <-> a = b.
Proof.
  unfold Js.strict_eq. destruct (Js.Item_eq_dec a b); split; congruence.
Qed.

Lemma strict_eq_refl (a : Js.Item) : Js.strict_eq a a = true.
Proof. apply strict_eq_true. reflexivity. Qed.

Lemma strict_eq_null_true (a : option Js.Item) (b : Js.Item) :
  Js.strict_eq_null a b = true <-> a = Some b.
Proof.
  destruct a as [x|]; simpl.
  - rewrite strict_eq_true. split; congruence.
  - split; congruence.
Qed.

Lemma truthy_some (v : option Js.Item) :
  Js.truthy v = true -> exists x, v = Some x.
Proof.
  destruct v as [x|]; simpl; [eauto | discriminate].
Qed.

Lemma splice1_map {A B : Type} (f : A -> B) (i : nat) (l : list A) :
  Js.splice1 i (map f l) = map f (Js.splice1 i l).
Proof.
  unfold Js.splice1.
  now rewrite map_app, firstn_map, skipn_map.
Qed.

Lemma set_nth_length {A : Type} (i : nat) (v : A) (l : list A) :
  List.length (Js.set_nth i v l) = List.length l.
Proof.
  revert i; induction l as [|x l IH]; intros [|i]; simpl; auto.
Qed.

(** ** Plate *)

Lemma premiumCount_fold (p : Js.Item -> bool) (l : list Js.Item) (acc : nat) :
  fold_left (fun count entree => if p entree then S count else count) l acc
  = (acc + List.length (filter p l))%nat.
Proof.
  revert acc; induction l as [|x l IH]; intros acc; simpl.
  - lia.
  - rewrite IH. destruct (p x); simpl; lia.
Qed.

Lemma premiumCount_filter (st : Plate.State) :
  Plate.premiumCount st
  = List.length (filter (Plate.isPremium st) (Plate.selectedEntrees st)).
Proof.
  unfold Plate.premiumCount. now rewrite premiumCount_fold.
Qed.

Lemma plate_canAddToCart_inv (st : Plate.State) :
  Plate.canAddToCart st = true ->
  (exists s, Plate.selectedSide st = Some s)
  /\ List.length (Plate.selectedEntrees st) = 2%nat.
Proof.
  unfold Plate.canAddToCart. intros H.
  apply andb_prop in H. destruct H as [Hs Hl].
  split; [now apply truthy_some | now apply Nat.eqb_eq].
Qed.

(** C4: a Plate selection that can be added to the cart has exactly one
    side and exactly two entrees; and once two entrees are selected,
    selecting another entree that is not among them changes nothing. *)
Theorem plate_one_side_two_entrees (st : Plate.State) :
  (Plate.canAddToCart st = true ->
   (exists s, Plate.selectedSide st = Some s)
   /\ List.length (Plate.selectedEntrees st) = 2%nat)
  /\ (forall e,
         List.length (Plate.selectedEntrees st) = 2%nat ->
         Js.includes e (Plate.selectedEntrees st) = false ->
         Plate.selectEntree e st = st).
Proof.
  split.
  - apply plate_canAddToCart_inv.
  - intros e Hl Hin. unfold Plate.selectEntree.
    rewrite Hin, Hl. reflexivity.
Qed.

Lemma plate_one_side_two_entrees_witness :
  let st := Plate.mkState [] [] (Some (98 # 10)%Q)
                          (Some (Js.ItemStr "Chow Mein"))
                          [Js.ItemStr "Orange Chicken"; Js.ItemStr "Beijing Beef"]
                          [] in
  ((exists s, Plate.selectedSide st = Some s)
   /\ List.length (Plate.selectedEntrees st) = 2%nat)
  /\ Plate.selectEntree (Js.ItemStr "Kung Pao Chicken") st = st.
Proof.
  intros st. destruct (plate_one_side_two_entrees st) as [H1 H2].
  split.
  - apply H1. reflexivity.
  - apply H2; reflexivity.
Defined.

(** With a side and two entrees selected and every lookup answered,
    [addToCart] emits one line and its entry. *)
Lemma plate_addToCart_emits (api : Catalogue) (st : Plate.State) (base : Z) :
  Plate.canAddToCart st = true ->
  itemid api "Plate" = Some base ->
  (forall n, foodid api n <> None) ->
  exists st' line entry,
    Plate.addToCart api st
    = (st', [Emit_addToCart (Single line); Emit_addToTransactionCart entry]).
Proof.
  intros Hc Hb Hf. unfold Plate.addToCart. rewrite Hc, Hb.
  destruct (plate_canAddToCart_inv st Hc) as [_ Hl].
  destruct (Plate.selectedEntrees st) as [|e1 [|e2 [|e3 l]]]; try discriminate.
  cbn [map promise_all].
  destruct (foodid api (Plate.getSideName (Plate.selectedSide st))) eqn:E0;
    [|now apply Hf in E0].
  destruct (foodid api (Plate.getEntreeName (Some e1))) eqn:E1;
    [|now apply Hf in E1].
  destruct (foodid api (Plate.getEntreeName (Some e2))) eqn:E2;
    [|now apply Hf in E2].
  do 3 eexists. reflexivity.
Qed.



(** ** Side selection *)

Lemma plate_selectSide_twice (s : Js.Item) (st : Plate.State) :
  Plate.selectedSide (Plate.selectSide s (Plate.selectSide s st))
  = if Js.strict_eq_null (Plate.selectedSide st) s then Some s else None.
Proof.
  unfold Plate.selectSide.
  destruct (Js.strict_eq_null (Plate.selectedSide st) s) eqn:E; simpl.
  - reflexivity.
  - now rewrite strict_eq_refl.
Qed.

(** C7, as stated, fails on a Plate whose side is already selected: after
    two clicks on that side it is selected again. *)
Lemma plate_side_toggle_twice_selected :
  let s := Js.ItemStr "Chow Mein" in
  let st := Plate.mkState [s] [] None (Some s) [] [] in
  Plate.selectedSide (Plate.selectSide s (Plate.selectSide s st)) = Some s.
Proof. reflexivity. Qed.

(** C7, amended: on a Plate, selecting twice a side that is not the
    selected one leaves no side selected, and all other fields as they were;
    selecting twice the side that is selected leaves it selected.  In the
    a la carte component, [toggleSides] only opens the size dialog: applied
    twice it leaves [selectedSides] as it was, so a side that was not
    selected is still not selected and one that was selected still is. *)
Theorem side_toggle_twice (s : Js.Item) :
  (forall st : Plate.State,
      Plate.selectedSide st <> Some s ->
      Plate.selectSide s (Plate.selectSide s st) = Plate.set_selectedSide None st)
  /\ (forall st : Plate.State,
         Plate.selectedSide st = Some s ->
         Plate.selectedSide (Plate.selectSide s (Plate.selectSide s st)) = Some s)
  /\ (forall st : ALaCarte.State,
         ALaCarte.selectedSides (ALaCarte.toggleSides s (ALaCarte.toggleSides s st))
         = ALaCarte.selectedSides st
         /\ forall t,
             ALaCarte.isSelected t ALaCarte.side
               (ALaCarte.toggleSides s (ALaCarte.toggleSides s st))
             = ALaCarte.isSelected t ALaCarte.side st).
Proof.
  split; [|split].
  - intros st Hn. unfold Plate.selectSide.
    destruct (Js.strict_eq_null (Plate.selectedSide st) s) eqn:E.
    + apply strict_eq_null_true in E. contradiction.
    + simpl. rewrite strict_eq_refl. reflexivity.
  - intros st Hs. rewrite plate_selectSide_twice.
    apply strict_eq_null_true in Hs. now rewrite Hs.
  - intros st. split; [reflexivity | intros t; reflexivity].
Qed.

Lemma side_toggle_twice_witness :
  let s := Js.ItemStr "Chow Mein" in
  let t := Js.ItemStr "Fried Rice" in
  let unselected := Plate.mkState [s; t] [] None (Some t) [] [] in
  let selected := Plate.mkState [s; t] [] None (Some s) [] [] in
  Plate.selectSide s (Plate.selectSide s unselected)
  = Plate.set_selectedSide None unselected
  /\ Plate.selectedSide (Plate.selectSide s (Plate.selectSide s selected))
     = Some s.
Proof.
  intros s t unselected selected.
  destruct (side_toggle_twice s) as (H1 & H2 & _).
  split.
  - apply H1. simpl. discriminate.
  - apply H2. reflexivity.
Defined.

(** ** A la carte *)

Lemma findIndex_lt {A : Type} (p : A -> bool) (l : list A) (i : nat) :
  Js.findIndex p l = Some i -> (i < List.length l)%nat.
Proof.
  revert i; induction l as [|x l IH]; intros i; simpl.
  - discriminate.
  - destruct (p x).
    + intros [= <-]. lia.
    + destruct (Js.findIndex p l) as [j|]; [|discriminate].
      intros [= <-]. specialize (IH j eq_refl). lia.
Qed.

Lemma selectedList_set (type : ALaCarte.ItemType) (l : list CartLine)
      (st : ALaCarte.State) :
  ALaCarte.selectedList type (ALaCarte.set_selectedList type l st) = l.
Proof. destruct type; reflexivity. Qed.

(** The list [selectSize] writes when the food id is found. *)
Lemma selectSize_selectedList (api : Catalogue) (sz : ALaCarte.SizeOption)
      (type : ALaCarte.ItemType) (st : ALaCarte.State) (f : Z) :
  ALaCarte.getFoodID api st (ALaCarte.currentItem st) = Some f ->
  let line :=
    mkLine (ALaCarte.label type (ALaCarte.typedName type (ALaCarte.currentItem st))
                           (ALaCarte.size_name sz))
           (ALaCarte.linePrice st sz type)
           (mkEntry (ALaCarte.size_baseItemID sz) f 0 0 0)
           (Some (ALaCarte.isPremium st (ALaCarte.currentItem st)))
           (Some (ALaCarte.size_name sz)) in
  ALaCarte.selectedList type (fst (ALaCarte.selectSize api sz type st))
  = match Js.findIndex
            (fun item =>
               Js.str_includes (name item)
                 (ALaCarte.typedName type (ALaCarte.currentItem st)))
            (ALaCarte.selectedList type st) with
    | Some i => Js.set_nth i line (ALaCarte.selectedList type st)
    | None => ALaCarte.selectedList type st ++ [line]
    end.
Proof.
  intros Hf line. unfold ALaCarte.selectSize. rewrite Hf. simpl fst.
  destruct type; reflexivity.
Qed.

Lemma set_nth_In {A : Type} (i : nat) (v : A) (l : list A) :
  (i < List.length l)%nat -> In v (Js.set_nth i v l).
Proof.
  revert i; induction l as [|x l IH]; intros [|i] H; simpl in *; try lia.
  - now left.
  - right. apply IH. lia.
Qed.



(** *** Entries and names of the selected lists *)

Lemma str_includes_unfold (s pat : string) :
  Js.str_includes s pat
  = String.prefix pat s
    || match s with
       | EmptyString => false
       | String _ rest => Js.str_includes rest pat
       end.
Proof. destruct s; reflexivity. Qed.

Lemma str_includes_prefix (pat rest : string) :
  Js.str_includes (pat ++ rest) pat = true.
Proof.
  assert (H : String.prefix pat (pat ++ rest) = true).
  { induction pat as [|c pat IH]; simpl.
    - destruct rest; reflexivity.
    - destruct (ascii_dec c c); [exact IH | congruence]. }
  rewrite str_includes_unfold, H. reflexivity.
Qed.

Lemma str_includes_app_l (x s pat : string) :
  Js.str_includes s pat = true -> Js.str_includes (x ++ s) pat = true.
Proof.
  intros H. induction x as [|c x IH]; simpl.
  - exact H.
  - rewrite IH. apply orb_true_r.
Qed.

Lemma label_includes_name (type : ALaCarte.ItemType) (n sz : string) :
  Js.str_includes (ALaCarte.label type n sz) n = true.
Proof.
  unfold ALaCarte.label.
  apply str_includes_app_l. apply (str_includes_app_l ": ").
  apply str_includes_prefix.
Qed.

Lemma includes_string_In (a : string) (l : list string) :
  Js.includes_string a l = true <-> In a l.
Proof.
  unfold Js.includes_string. rewrite existsb_exists. split.
  - intros (x & Hx & E). apply String.eqb_eq in E. now subst.
  - intros H. exists a. split; [exact H | apply String.eqb_refl].
Qed.

Lemma findIndex_Some {A : Type} (p : A -> bool) (l : list A) (i : nat) :
  Js.findIndex p l = Some i ->
  exists x, nth_error l i = Some x /\ p x = true.
Proof.
  revert i; induction l as [|y l IH]; intros i; simpl.
  - discriminate.
  - destruct (p y) eqn:E.
    + intros [= <-]. exists y. now split.
    + destruct (Js.findIndex p l) as [j|]; [|discriminate].
      intros [= <-]. exact (IH j eq_refl).
Qed.

Lemma findIndex_None {A : Type} (p : A -> bool) (l : list A) :
  Js.findIndex p l = None -> forall x, In x l -> p x = false.
Proof.
  induction l as [|y l IH]; simpl; intros H x Hin.
  - contradiction.
  - destruct (p y) eqn:E; [discriminate|].
    destruct (Js.findIndex p l); [discriminate|].
    destruct Hin as [<- | Hin]; [exact E | now apply IH].
Qed.

Lemma Forall2_nth_error_l {A B : Type} (R : A -> B -> Prop)
      (l : list A) (l' : list B) (i : nat) (x : A) :
  Forall2 R l l' -> nth_error l i = Some x ->
  exists y, nth_error l' i = Some y /\ R x y.
Proof.
  intros H; revert i; induction H as [|a b l l' Hab H IH]; intros [|i]; simpl;
    try discriminate.
  - intros [= <-]. eauto.
  - apply IH.
Qed.

Lemma Forall2_In_r {A B : Type} (R : A -> B -> Prop)
      (l : list A) (l' : list B) (y : B) :
  Forall2 R l l' -> In y l' -> exists x, In x l /\ R x y.
Proof.
  induction 1 as [|a b l l' Hab H IH]; simpl.
  - contradiction.
  - intros [<- | Hin]; [eauto|].
    destruct (IH Hin) as (x & Hx & HR). eauto.
Qed.

Lemma Forall2_set_nth {A B : Type} (R : A -> B -> Prop)
      (l : list A) (l' : list B) (i : nat) (v : A) (y : B) :
  Forall2 R l l' -> nth_error l' i = Some y -> R v y ->
  Forall2 R (Js.set_nth i v l) l'.
Proof.
  intros H; revert i; induction H as [|a b l l' Hab H IH]; intros [|i]; simpl;
    try discriminate.
  - intros [= <-] Hv. now constructor.
  - intros Hn Hv. constructor; [exact Hab | now apply IH].
Qed.

Lemma unambiguous_spec (type : ALaCarte.ItemType) (menu sizes : list string)
      (a b sz : string) :
  ALaCarte.unambiguous type menu sizes = true ->
  In a menu -> In b menu -> In sz sizes ->
  Js.str_includes (ALaCarte.label type b sz) a = true -> a = b.
Proof.
  unfold ALaCarte.unambiguous. intros H Ha Hb Hsz Hinc.
  rewrite forallb_forall in H. specialize (H a Ha).
  rewrite forallb_forall in H. specialize (H b Hb).
  rewrite forallb_forall in H. specialize (H sz Hsz).
  rewrite Hinc in H. simpl in H. now apply String.eqb_eq.
Qed.

Lemma toggle_getFoodID (api : Catalogue) (type : ALaCarte.ItemType)
      (item : Js.Item) (st : ALaCarte.State) :
  let st1 := match type with
             | ALaCarte.side => ALaCarte.toggleSides item st
             | ALaCarte.entree => ALaCarte.toggleEntrees item st
             end in
  ALaCarte.getFoodID api st1 (ALaCarte.currentItem st1)
  = foodid api (ALaCarte.typedName type (Some item))
  /\ ALaCarte.currentItem st1 = Some item
  /\ ALaCarte.selectedList type st1 = ALaCarte.selectedList type st.
Proof. destruct type; repeat split. Qed.

Section ALaCarteNames.
Variable api : Catalogue.
Variable type : ALaCarte.ItemType.
Variables menu sizes : list string.
Hypothesis Hmenu : ALaCarte.unambiguous type menu sizes = true.

(** The names [ns] are those of the entries of [l], one each, all
    different and all of the menu. *)
Let tracked (l : list CartLine) (ns : list string) : Prop :=
  Forall2 (ALaCarte.entryOf type sizes) l ns
  /\ NoDup ns
  /\ Forall (fun n => In n menu) ns.

Lemma pick_tracked (item : Js.Item) (sz : ALaCarte.SizeOption)
      (st : ALaCarte.State) (ns : list string) :
  In (ALaCarte.typedName type (Some item)) menu ->
  In (ALaCarte.size_name sz) sizes ->
  tracked (ALaCarte.selectedList type st) ns ->
  tracked (ALaCarte.selectedList type (ALaCarte.pick api type item sz st))
          (ALaCarte.pickedNames api type [(item, sz)] ns).
Proof.
  intros Ha Hsz (HF & Hnd & Hin).
  unfold ALaCarte.pick, ALaCarte.pickedNames. cbn [fold_left fst snd].
  destruct (toggle_getFoodID api type item st) as (Hfood & Hcur & Hsel).
  set (st1 := match type with
              | ALaCarte.side => ALaCarte.toggleSides item st
              | ALaCarte.entree => ALaCarte.toggleEntrees item st
              end) in *.
  set (a := ALaCarte.typedName type (Some item)) in *.
  destruct (foodid api a) as [f|] eqn:Ef.
  - rewrite (selectSize_selectedList api sz type st1 Hfood).
    rewrite Hcur, Hsel. fold a.
    assert (Hnew : ALaCarte.entryOf type sizes
                     (mkLine (ALaCarte.label type a (ALaCarte.size_name sz))
                             (ALaCarte.linePrice st1 sz type)
                             (mkEntry (ALaCarte.size_baseItemID sz) f 0 0 0)
                             (Some (ALaCarte.isPremium st1 (Some item)))
                             (Some (ALaCarte.size_name sz))) a).
    { exists (ALaCarte.size_name sz). repeat split. exact Hsz. }
    destruct (Js.findIndex _ _) as [i|] eqn:Ei.
    + destruct (findIndex_Some _ _ Ei) as (x & Hx & Hpx).
      destruct (Forall2_nth_error_l i HF Hx) as (b & Hb & (sz' & Hsz' & _ & Hname)).
      assert (Hbm : In b menu).
      { rewrite Forall_forall in Hin. apply Hin. eapply nth_error_In; eauto. }
      rewrite Hname in Hpx.
      assert (a = b) by (eapply unambiguous_spec; eauto). subst b.
      assert (Hmem : Js.includes_string a ns = true).
      { apply includes_string_In. eapply nth_error_In; eauto. }
      rewrite Hmem. split; [|now split].
      eapply Forall2_set_nth; eauto.
    + assert (Hmem : Js.includes_string a ns = false).
      { destruct (Js.includes_string a ns) eqn:E; [|reflexivity].
        apply includes_string_In in E.
        destruct (Forall2_In_r a HF E) as (x & Hx & (sz' & _ & _ & Hname)).
        pose proof (findIndex_None _ _ Ei x Hx) as Hp. cbv beta in Hp.
        rewrite Hname, label_includes_name in Hp. discriminate. }
      rewrite Hmem. split; [|split].
      * apply Forall2_app; [exact HF | constructor; [exact Hnew | constructor]].
      * apply NoDup_app; [exact Hnd | repeat constructor; intros [] | ].
        intros x Hx [<- | []].
        apply includes_string_In in Hx. congruence.
      * apply Forall_app. split; [exact Hin | repeat constructor; exact Ha].
  - unfold ALaCarte.selectSize. rewrite Hfood. simpl fst.
    rewrite Hsel. now split.
Qed.

Lemma picks_tracked (l : list (Js.Item * ALaCarte.SizeOption))
      (st : ALaCarte.State) (ns : list string) :
  ALaCarte.fromMenu type menu sizes l = true ->
  tracked (ALaCarte.selectedList type st) ns ->
  tracked (ALaCarte.selectedList type (ALaCarte.picks api type l st))
          (ALaCarte.pickedNames api type l ns).
Proof.
  revert st ns; induction l as [|[item sz] l IH]; intros st ns Hl Ht.
  - exact Ht.
  - unfold ALaCarte.fromMenu in Hl. cbn [forallb fst snd] in Hl.
    apply andb_prop in Hl. destruct Hl as [Hp Hl].
    apply andb_prop in Hp. destruct Hp as [Ha Hsz].
    apply includes_string_In in Ha. apply includes_string_In in Hsz.
    apply (IH (ALaCarte.pick api type item sz st)
              (ALaCarte.pickedNames api type [(item, sz)] ns) Hl).
    now apply pick_tracked.
Qed.

End ALaCarteNames.

(** *** The selected list against the name-keyed selection *)

Lemma pick_writes_lineOf (api : Catalogue) (type : ALaCarte.ItemType)
      (item : Js.Item) (sz : ALaCarte.SizeOption) (st : ALaCarte.State)
      (f : Z) :
  foodid api (ALaCarte.typedName type (Some item)) = Some f ->
  ALaCarte.selectedList type (ALaCarte.pick api type item sz st)
  = match Js.findIndex
            (fun x => Js.str_includes (name x)
                        (ALaCarte.typedName type (Some item)))
            (ALaCarte.selectedList type st) with
    | Some i =>
        Js.set_nth i (ALaCarte.lineOf (ALaCarte.premiumEntrees st) type item sz f)
                   (ALaCarte.selectedList type st)
    | None =>
        ALaCarte.selectedList type st
          ++ [ALaCarte.lineOf (ALaCarte.premiumEntrees st) type item sz f]
    end.
Proof.
  intros Hf. unfold ALaCarte.pick.
  destruct (toggle_getFoodID api type item st) as (Hfood & Hcur & Hsel).
  set (st1 := match type with
              | ALaCarte.side => ALaCarte.toggleSides item st
              | ALaCarte.entree => ALaCarte.toggleEntrees item st
              end) in *.
  rewrite Hf in Hfood.
  rewrite (selectSize_selectedList api sz type st1 Hfood).
  rewrite Hcur, Hsel.
  assert (Hline :
            mkLine (ALaCarte.label type (ALaCarte.typedName type (Some item))
                                   (ALaCarte.size_name sz))
                   (ALaCarte.linePrice st1 sz type)
                   (mkEntry (ALaCarte.size_baseItemID sz) f 0 0 0)
                   (Some (ALaCarte.isPremium st1 (Some item)))
                   (Some (ALaCarte.size_name sz))
            = ALaCarte.lineOf (ALaCarte.premiumEntrees st) type item sz f).
  { unfold ALaCarte.lineOf, ALaCarte.linePrice, ALaCarte.isPremium.
    rewrite Hcur. unfold st1. destruct type; reflexivity. }
  rewrite Hline. reflexivity.
Qed.

Lemma pick_unanswered (api : Catalogue) (type : ALaCarte.ItemType)
      (item : Js.Item) (sz : ALaCarte.SizeOption) (st : ALaCarte.State) :
  foodid api (ALaCarte.typedName type (Some item)) = None ->
  ALaCarte.selectedList type (ALaCarte.pick api type item sz st)
  = ALaCarte.selectedList type st.
Proof.
  intros Hf. unfold ALaCarte.pick, ALaCarte.selectSize.
  destruct (toggle_getFoodID api type item st) as (Hfood & _ & Hsel).
  cbv zeta in Hfood, Hsel. rewrite Hfood, Hf. simpl fst. exact Hsel.
Qed.

Lemma pick_premiumEntrees (api : Catalogue) (type : ALaCarte.ItemType)
      (item : Js.Item) (sz : ALaCarte.SizeOption) (st : ALaCarte.State) :
  ALaCarte.premiumEntrees (ALaCarte.pick api type item sz st)
  = ALaCarte.premiumEntrees st.
Proof.
  unfold ALaCarte.pick, ALaCarte.selectSize.
  destruct (ALaCarte.getFoodID _ _ _); destruct type; reflexivity.
Qed.

(** On a list whose labels contain [a] exactly at the entry keyed [a], the
    replace-or-push of [selectSize] is the upsert at [a]. *)
Lemma upsert_write (a : string) (line : CartLine)
      (acc : list (string * CartLine)) :
  Forall (fun nx => Js.str_includes (name (snd nx)) a = String.eqb a (fst nx))
         acc ->
  match Js.findIndex (fun x => Js.str_includes (name x) a) (map snd acc) with
  | Some i => Js.set_nth i line (map snd acc)
  | None => map snd acc ++ [line]
  end
  = map snd (ALaCarte.upsert a line acc).
Proof.
  induction 1 as [|[b x] rest Hx Hrest IH]; simpl.
  - reflexivity.
  - simpl in Hx. rewrite Hx. destruct (String.eqb a b); simpl.
    + reflexivity.
    + destruct (Js.findIndex _ (map snd rest)) as [i|]; simpl;
        now rewrite <- IH.
Qed.

Lemma upsert_keys (a : string) (line : CartLine)
      (acc : list (string * CartLine)) :
  map fst (ALaCarte.upsert a line acc)
  = if Js.includes_string a (map fst acc) then map fst acc
    else map fst acc ++ [a].
Proof.
  unfold Js.includes_string.
  induction acc as [|[b x] rest IH]; simpl.
  - reflexivity.
  - destruct (String.eqb a b) eqn:E; simpl.
    + apply String.eqb_eq in E. now subst.
    + rewrite IH. now destruct (existsb _ _).
Qed.

Section ALaCarteUpsert.
Variable api : Catalogue.
Variable type : ALaCarte.ItemType.
Variables menu sizes : list string.
Hypothesis Hmenu : ALaCarte.unambiguous type menu sizes = true.

(** Every key is a name of the menu and keys an entry labelled with it at
    one of the sizes. *)
Let keyed (acc : list (string * CartLine)) : Prop :=
  Forall (fun nx =>
            In (fst nx) menu
            /\ exists sz, In sz sizes
                          /\ name (snd nx) = ALaCarte.label type (fst nx) sz)
         acc.

Lemma keyed_upsert (a : string) (line : CartLine)
      (acc : list (string * CartLine)) :
  In a menu ->
  (exists sz, In sz sizes /\ name line = ALaCarte.label type a sz) ->
  keyed acc -> keyed (ALaCarte.upsert a line acc).
Proof.
  intros Ha Hl H. induction H as [|[b x] rest Hx Hrest IH]; simpl.
  - repeat constructor; assumption.
  - destruct (String.eqb a b).
    + constructor; [split; assumption | exact Hrest].
    + constructor; [exact Hx | exact IH].
Qed.

Lemma keyed_matches (a : string) (acc : list (string * CartLine)) :
  In a menu -> keyed acc ->
  Forall (fun nx => Js.str_includes (name (snd nx)) a = String.eqb a (fst nx))
         acc.
Proof.
  intros Ha H. induction H as [|[b x] rest Hx Hrest IH]; constructor; auto.
  simpl in *. destruct Hx as (Hb & sz & Hsz & Hn). rewrite Hn.
  destruct (String.eqb a b) eqn:E.
  - apply String.eqb_eq in E. subst. apply label_includes_name.
  - destruct (Js.str_includes (ALaCarte.label type b sz) a) eqn:Ei;
      [|reflexivity].
    assert (a = b) by (eapply unambiguous_spec; eauto). subst.
    now rewrite String.eqb_refl in E.
Qed.

Lemma picks_upserted (premium : list string)
      (l : list (Js.Item * ALaCarte.SizeOption))
      (st : ALaCarte.State) (acc : list (string * CartLine)) :
  ALaCarte.fromMenu type menu sizes l = true ->
  keyed acc ->
  ALaCarte.premiumEntrees st = premium ->
  ALaCarte.selectedList type st = map snd acc ->
  ALaCarte.selectedList type (ALaCarte.picks api type l st)
  = map snd (ALaCarte.upserted api premium type l acc)
  /\ ALaCarte.pickedNames api type l (map fst acc)
     = map fst (ALaCarte.upserted api premium type l acc).
Proof.
  revert st acc; induction l as [|[item sz] l IH]; intros st acc Hl Hk Hpr Hs.
  - split; [exact Hs | reflexivity].
  - unfold ALaCarte.fromMenu in Hl. cbn [forallb fst snd] in Hl.
    apply andb_prop in Hl. destruct Hl as [Hp Hl].
    apply andb_prop in Hp. destruct Hp as [Ha Hsz].
    apply includes_string_In in Ha. apply includes_string_In in Hsz.
    unfold ALaCarte.picks, ALaCarte.upserted, ALaCarte.pickedNames.
    cbn [fold_left fst snd].
    pose proof (pick_premiumEntrees api type item sz st) as Hpr'.
    rewrite Hpr in Hpr'.
    set (a := ALaCarte.typedName type (Some item)) in *.
    destruct (foodid api a) as [f|] eqn:Ef.
    + rewrite <- upsert_keys
        with (line := ALaCarte.lineOf premium type item sz f).
      apply IH; [exact Hl | | exact Hpr' |].
      * apply keyed_upsert; [exact Ha | | exact Hk].
        exists (ALaCarte.size_name sz). split; [exact Hsz | reflexivity].
      * rewrite (pick_writes_lineOf api type item sz st Ef). fold a.
        rewrite Hs, Hpr. apply upsert_write. now apply keyed_matches.
    + apply IH; [exact Hl | exact Hk | exact Hpr' |].
      rewrite (pick_unanswered api type item sz st Ef). exact Hs.
Qed.

End ALaCarteUpsert.

(** C10 fails on the code when the name of one item occurs in the label
    of another: with sides named "Rice" and "Large", picking Rice at
    Medium, Large at Medium, Rice at Large and Large at Medium leaves two
    entries for Large and none for Rice. *)
Lemma alacarte_duplicate_entries :
  let api := mkCatalogue (fun _ => Some 3%Z) (fun _ => Some 7%Z) in
  let medium := ALaCarte.mkSize "Medium" (Some (44 # 10)%Q) (Some 10%Z) in
  let large := ALaCarte.mkSize "Large" (Some (54 # 10)%Q) (Some 11%Z) in
  let rice := Js.ItemStr "Rice" in
  let odd := Js.ItemStr "Large" in
  map name
      (ALaCarte.selectedSides
         (ALaCarte.picks api ALaCarte.side
                         [(rice, medium); (odd, medium); (rice, large);
                          (odd, medium)]
                         ALaCarte.data))
  = ["Side: Large (Medium)"; "Side: Large (Medium)"].
Proof. vm_compute. reflexivity. Qed.



(** ** Ready time *)

Section Rounding.
Open Scope Z_scope.

Lemma excess_bits_range (m : Z) :
  0 <= m < 2 ^ 53 -> 0 <= Binary64.excess_bits (6 * m) <= 3.
Proof.
  intros Hm. unfold Binary64.excess_bits.
  destruct (Z.eq_dec m 0) as [->|Hz]; [simpl; lia|].
  assert (Hlog : Z.log2 (6 * m) < 56).
  { apply Z.log2_lt_pow2; lia. }
  lia.
Qed.

(** Rounding to nearest moves a value by at most half a unit of the last
    place kept. *)
Lemma round_even_bounds (n d : Z) :
  0 <= n -> 0 <= d <= 3 ->
  n - 4 <= Binary64.round_even n d * 2 ^ d <= n + 4.
Proof.
  intros Hn Hd. unfold Binary64.round_even.
  assert (Hcases : d = 0 \/ d = 1 \/ d = 2 \/ d = 3) by lia.
  destruct Hcases as [-> | [-> | [-> | ->]]];
    change (2 ^ 0) with 1; change (2 ^ 1) with 2;
    change (2 ^ 2) with 4; change (2 ^ 3) with 8.
  - rewrite Z.mod_1_r, Z.div_1_r. simpl. lia.
  - pose proof (Z.div_mod n 2 ltac:(lia)).
    pose proof (Z.mod_pos_bound n 2 ltac:(lia)).
    destruct ((2 * (n mod 2) >? 2) || _) eqn:E; [|lia].
    apply orb_prop in E. destruct E as [E | E].
    + apply Z.gtb_lt in E. lia.
    + apply andb_prop in E. destruct E as [E _]. apply Z.eqb_eq in E. lia.
  - pose proof (Z.div_mod n 4 ltac:(lia)).
    pose proof (Z.mod_pos_bound n 4 ltac:(lia)).
    destruct ((2 * (n mod 4) >? 4) || _) eqn:E; [|lia].
    apply orb_prop in E. destruct E as [E | E].
    + apply Z.gtb_lt in E. lia.
    + apply andb_prop in E. destruct E as [E _]. apply Z.eqb_eq in E. lia.
  - pose proof (Z.div_mod n 8 ltac:(lia)).
    pose proof (Z.mod_pos_bound n 8 ltac:(lia)).
    destruct ((2 * (n mod 8) >? 8) || _) eqn:E; [|lia].
    apply orb_prop in E. destruct E as [E | E].
    + apply Z.gtb_lt in E. lia.
    + apply andb_prop in E. destruct E as [E _]. apply Z.eqb_eq in E. lia.
Qed.

Lemma round_even_nonneg (n d : Z) :
  0 <= n -> 0 <= d -> 0 <= Binary64.round_even n d.
Proof.
  intros Hn Hd. unfold Binary64.round_even.
  assert (0 < 2 ^ d) by (apply Z.pow_pos_nonneg; lia).
  assert (0 <= n / 2 ^ d) by (apply Z.div_pos; lia).
  destruct (_ || _); lia.
Qed.

Lemma is_draw_spec (m k : Z) :
  Binary64.is_draw m k = true ->
  0 <= m < 2 ^ 53 /\ 0 <= k <= 1074 /\ m < 2 ^ k.
Proof.
  unfold Binary64.is_draw. intros H.
  repeat (apply andb_prop in H; destruct H as [H ?]).
  repeat match goal with
         | E : (_ <=? _) = true |- _ => apply Z.leb_le in E
         | E : (_ <? _) = true |- _ => apply Z.ltb_lt in E
         end.
  apply Z.leb_le in H. lia.
Qed.

Lemma randomMinutes_range (m k : Z) :
  Binary64.is_draw m k = true ->
  5 <= Binary64.randomMinutes m k <= 10.
Proof.
  intros H. apply is_draw_spec in H. destruct H as (Hm & Hk & Hlt).
  unfold Binary64.randomMinutes, Binary64.floor, Binary64.times6.
  pose proof (excess_bits_range Hm) as Hd.
  pose proof (@round_even_bounds (6 * m) _ ltac:(lia) Hd) as Hr.
  pose proof (@round_even_nonneg (6 * m) (Binary64.excess_bits (6 * m))
                                 ltac:(lia) ltac:(lia)) as Hq.
  set (v := Binary64.round_even (6 * m) (Binary64.excess_bits (6 * m))
            * 2 ^ Binary64.excess_bits (6 * m)) in *.
  assert (Hpow : 0 < 2 ^ k) by (apply Z.pow_pos_nonneg; lia).
  assert (Hv0 : 0 <= v).
  { unfold v. apply Z.mul_nonneg_nonneg; [exact Hq|].
    apply Z.pow_nonneg. lia. }
  assert (Hlo : 0 <= v / 2 ^ k) by (apply Z.div_pos; lia).
  assert (Hhi : v / 2 ^ k < 6).
  { apply Z.div_lt_upper_bound; lia. }
  lia.
Qed.

End Rounding.



(** X21: each of the six offsets, 5 to 10 minutes, is the result of some
    draw. *)
Lemma randomMinutes_attained (minutes : Z) :
  (5 <= minutes <= 10)%Z ->
  exists m k,
    Binary64.is_draw m k = true /\ Binary64.randomMinutes m k = minutes.
Proof.
  intros H.
  assert (Hc : (minutes = 5 \/ minutes = 6 \/ minutes = 7 \/ minutes = 8
                \/ minutes = 9 \/ minutes = 10)%Z) by lia.
  destruct Hc as [-> | [-> | [-> | [-> | [-> | ->]]]]].
  - exists 0%Z, 3%Z. split; reflexivity.
  - exists 2%Z, 3%Z. split; reflexivity.
  - exists 3%Z, 3%Z. split; reflexivity.
  - exists 4%Z, 3%Z. split; reflexivity.
  - exists 6%Z, 3%Z. split; reflexivity.
  - exists 7%Z, 3%Z. split; reflexivity.
Qed.

(** ** Cart and transaction cart *)

Lemma aligned_set_carts (items : list CartLine) (st : App.State) :
  App.aligned (App.set_carts items (map transactionEntry items) st).
Proof. reflexivity. Qed.

Lemma aligned_removeFromCart (index : nat) (st : App.State) :
  App.aligned st -> App.aligned (App.removeFromCart index st).
Proof.
  unfold App.aligned, App.removeFromCart. simpl. intros <-.
  symmetry. apply splice1_map.
Qed.

Lemma aligned_clear (st : App.State) :
  App.aligned (App.clearCart st) /\ App.aligned (App.clearOrder st).
Proof. split; reflexivity. Qed.

(** A line and its own entry, emitted together. *)
Lemma aligned_pair (line : CartLine) (st : App.State) :
  App.aligned st ->
  App.aligned
    (App.dispatch [Emit_addToCart (Single line);
                   Emit_addToTransactionCart (transactionEntry line)] st).
Proof.
  unfold App.aligned. simpl. intros <-. now rewrite map_app.
Qed.

Lemma dispatch_app (e1 e2 : list Effect) (st : App.State) :
  App.dispatch (e1 ++ e2) st = App.dispatch e2 (App.dispatch e1 st).
Proof. apply fold_left_app. Qed.

Lemma aligned_pairs (lines : list CartLine) (st : App.State) :
  App.aligned st ->
  App.aligned
    (App.dispatch
       (flat_map (fun item =>
                    [Emit_addToCart (Single item);
                     Emit_addToTransactionCart (transactionEntry item)])
                 lines)
       st).
Proof.
  revert st; induction lines as [|l lines IH]; intros st H.
  - exact H.
  - cbn [flat_map]. rewrite dispatch_app. apply IH. now apply aligned_pair.
Qed.

Lemma aligned_plate (api : Catalogue) (p : Plate.State) (st : App.State) :
  App.aligned st ->
  App.aligned (App.dispatch (snd (Plate.addToCart api p)) st).
Proof.
  intros H. unfold Plate.addToCart.
  destruct (Plate.canAddToCart p); [|exact H].
  destruct (itemid api "Plate"); [|exact H].
  destruct (promise_all _) as [[|f0 [|f1 [|f2 fs]]]|]; try exact H.
  cbv zeta. cbn [snd]. apply (aligned_pair (mkLine _ _ _ _ _) H).
Qed.

Lemma aligned_alacarte (a : ALaCarte.State) (st : App.State) :
  App.aligned st ->
  App.aligned (App.dispatch (snd (ALaCarte.addToCart a)) st).
Proof.
  intros H. unfold ALaCarte.addToCart.
  destruct (ALaCarte.canAddToCart a); [|exact H].
  cbn [snd]. now apply aligned_pairs.
Qed.

Lemma promise_all_length {A : Type} (rs : list (option A)) (xs : list A) :
  promise_all rs = Some xs -> List.length xs = List.length rs.
Proof.
  revert xs; induction rs as [|[r|] rs IH]; intros xs; simpl.
  - intros [= <-]. reflexivity.
  - destruct (promise_all rs) as [ys|]; [|discriminate].
    intros [= <-]. simpl. now rewrite (IH ys eq_refl).
  - discriminate.
Qed.

Lemma promise_all_answered {A B : Type} (f : A -> option B) (l : list A) :
  (forall a, f a <> None) -> exists xs, promise_all (map f l) = Some xs.
Proof.
  intros Hf. induction l as [|a l [xs IH]]; simpl.
  - eauto.
  - destruct (f a) eqn:E; [|now apply Hf in E].
    rewrite IH. eauto.
Qed.

(** What the root receives from [Appetizer.addToCart] when every lookup is
    answered: all the lines, and the entry of the first line only. *)
Lemma appetizer_addToCart_emits (api : Catalogue) (a : Appetizer.State) :
  Appetizer.canAddToCart a = true ->
  itemid api "Appetizer" <> None ->
  (forall n, foodid api n <> None) ->
  exists first rest,
    List.length (first :: rest) = List.length (Appetizer.selectedAppetizers a)
    /\ snd (Appetizer.addToCart api a)
       = [Emit_addToCart (Batch (first :: rest));
          Emit_addToTransactionCart (transactionEntry first)].
Proof.
  intros Hc Hb Hf. unfold Appetizer.addToCart. rewrite Hc.
  destruct (itemid api "Appetizer") as [base|]; [|contradiction].
  destruct (promise_all_answered
              (fun appetizer => foodid api (Appetizer.getAppetizerName appetizer))
              (Appetizer.selectedAppetizers a)) as [ids Hids].
  { intros x. apply Hf. }
  rewrite Hids. apply promise_all_length in Hids. rewrite length_map in Hids.
  unfold Appetizer.canAddToCart in Hc. apply Nat.ltb_lt in Hc.
  destruct (Appetizer.selectedAppetizers a) as [|a0 sel]; [simpl in Hc; lia|].
  destruct ids as [|i0 ids]; [discriminate|].
  cbn [map combine snd].
  match goal with
  | |- exists first rest, _ /\ [Emit_addToCart (Batch (?f :: ?r)); _] = _ =>
      exists f, r
  end.
  split; [|reflexivity].
  simpl. rewrite length_map, length_combine, length_map.
  simpl in Hids. lia.
Qed.

(** C1: the root keeps the two sequences aligned under removal, clearing,
    and the additions of the Plate and a la carte components, but not under
    the batch addition of the appetizers.  An [Appetizer.addToCart] with [n]
    selected appetizers appends [n] lines and one entry, so the sequences
    stay aligned exactly when one appetizer is selected. *)
Theorem appetizer_batch_alignment
        (api : Catalogue) (a : Appetizer.State) (st : App.State) :
  App.aligned st ->
  Appetizer.canAddToCart a = true ->
  itemid api "Appetizer" <> None ->
  (forall n, foodid api n <> None) ->
  let st' := App.dispatch (snd (Appetizer.addToCart api a)) st in
  List.length (App.cartItems st')
  = (List.length (App.cartItems st)
     + List.length (Appetizer.selectedAppetizers a))%nat
  /\ List.length (App.transactionCart st')
     = (List.length (App.transactionCart st) + 1)%nat
  /\ (App.aligned st' <-> List.length (Appetizer.selectedAppetizers a) = 1%nat).
Proof.
  intros Hal Hc Hb Hf st'.
  destruct (appetizer_addToCart_emits api a Hc Hb Hf) as (first & rest & Hlen & He).
  unfold st'. rewrite He. clear st' He.
  unfold App.aligned in *. simpl.
  rewrite !length_app. simpl List.length at 2 3.
  simpl in Hlen. split; [lia|]. split; [simpl; lia|].
  rewrite map_app, <- Hal. split.
  - intros H. apply (f_equal (@List.length _)) in H.
    rewrite !length_app, !length_map in H. simpl in H. lia.
  - intros H. destruct rest; [reflexivity | simpl in Hlen; lia].
Qed.

Lemma appetizer_batch_alignment_witness :
  let api := mkCatalogue (fun _ => Some 3%Z) (fun _ => Some 7%Z) in
  let a := Appetizer.mkState []
             [Js.ItemStr "Chicken Egg Roll"; Js.ItemStr "Cream Cheese Rangoon"]
             (Some 2%Q) in
  let st' := App.dispatch (snd (Appetizer.addToCart api a)) (App.data None) in
  List.length (App.cartItems st') = 2%nat
  /\ List.length (App.transactionCart st') = 1%nat.
Proof.
  intros api a st'.
  destruct (@appetizer_batch_alignment api a (App.data None) eq_refl eq_refl)
    as (H1 & H2 & _).
  - simpl. discriminate.
  - intros n. simpl. discriminate.
  - split; [exact H1 | exact H2].
Defined.

(** Two appetizers added to an empty cart: two lines, one entry. *)
Lemma appetizer_batch_misaligned :
  let api := mkCatalogue (fun _ => Some 3%Z) (fun _ => Some 7%Z) in
  let a := Appetizer.mkState []
             [Js.ItemStr "Chicken Egg Roll"; Js.ItemStr "Cream Cheese Rangoon"]
             (Some 2%Q) in
  let st' := App.dispatch (snd (Appetizer.addToCart api a)) (App.data None) in
  map name (App.cartItems st')
  = ["Appetizer: Chicken Egg Roll"; "Appetizer: Cream Cheese Rangoon"]
  /\ App.transactionCart st' = [mkEntry (Some 3%Z) 7 0 0 0]
  /\ ~ App.aligned st'.
Proof.
  intros api a st'. split; [reflexivity|]. split; [reflexivity|].
  unfold App.aligned. vm_compute. discriminate.
Qed.

(** ** completeOrder *)

Lemma settle_fields (w : App.World) (st : App.State) (i : nat) :
  App.cartItems (App.settle w st i) = App.cartItems st
  /\ App.transactionCart (App.settle w st i) = App.transactionCart st
  /\ App.transactionId (App.settle w st i) = App.transactionId st
  /\ App.selectedPayment (App.settle w st i) = App.selectedPayment st.
Proof. unfold App.settle. destruct (App.itemAccepted w i); repeat split. Qed.

Lemma settle_all_fields (w : App.World) (A : Type) (l : list (nat * A))
      (st : App.State) :
  let st' := fold_left (fun s ie => App.settle w s (fst ie)) l st in
  App.cartItems st' = App.cartItems st
  /\ App.transactionCart st' = App.transactionCart st
  /\ App.transactionId st' = App.transactionId st
  /\ App.selectedPayment st' = App.selectedPayment st.
Proof.
  revert st; induction l as [|ie l IH]; intros st; simpl.
  - repeat split.
  - destruct (IH (App.settle w st (fst ie))) as (H1 & H2 & H3 & H4).
    destruct (settle_fields w st (fst ie)) as (E1 & E2 & E3 & E4).
    cbv zeta in *. rewrite H1, H2, H3, H4. now repeat split.
Qed.

(** The run of [completeOrder] once the latest id is read and a payment
    method is selected. *)
Lemma completeOrder_paid (w : App.World) (st : App.State) (id : Z) :
  App.latestID w = Some id ->
  App.payment_selected (App.selectedPayment st) = true ->
  let header :=
    App.PostTransaction id (App.employeeID st) (App.cartTotal st)
                        (App.to_String (App.selectedPayment st)) in
  let lines := App.indexed (App.transactionCart st) in
  App.requests (App.completeOrder w st)
  = if App.transactionAccepted w then
      [App.GetLatestID; header]
        ++ flat_map (fun ie => App.lineRequests id (snd ie)) lines
        ++ flat_map (fun ie => App.settledRequests w (fst ie) (snd ie)) lines
    else [App.GetLatestID; header].
Proof.
  intros Hid Hp. unfold App.completeOrder. rewrite Hid. simpl.
  rewrite Hp. destruct (App.transactionAccepted w); reflexivity.
Qed.

Lemma filter_flat_map {A B : Type} (p : B -> bool) (f : A -> list B)
      (l : list A) :
  filter p (flat_map f l) = flat_map (fun x => filter p (f x)) l.
Proof.
  induction l as [|x l IH]; simpl; [reflexivity|].
  now rewrite filter_app, IH.
Qed.

Lemma flat_map_nil {A B : Type} (l : list A) :
  flat_map (fun _ : A => @nil B) l = [].
Proof. induction l; simpl; auto. Qed.

Lemma flat_map_single {A B : Type} (f : A -> B) (l : list A) :
  flat_map (fun x => [f x]) l = map f l.
Proof. induction l as [|x l IH]; simpl; [reflexivity | now rewrite IH]. Qed.

Lemma indexed_snd {A : Type} (l : list A) : map snd (App.indexed l) = l.
Proof.
  unfold App.indexed. generalize 0%nat.
  induction l as [|x l IH]; intros n; simpl; [reflexivity | now rewrite IH].
Qed.

Lemma filter_food_map (l : list Z) :
  filter App.isFoodDecrement (map App.GetSubtract l) = map App.GetSubtract l
  /\ filter App.isItemTypeDecrement (map App.GetSubtract l) = [].
Proof.
  induction l as [|x l [IH1 IH2]]; simpl; [now split|].
  rewrite IH1, IH2. now split.
Qed.

Lemma foodids_spec (e : TransactionEntry) (f : Z) :
  In f (App.foodids e)
  <-> In f [food1 e; food2 e; food3 e; food4 e] /\ f <> 0%Z.
Proof.
  unfold App.foodids. rewrite filter_In.
  rewrite negb_true_iff, Z.eqb_neq. reflexivity.
Qed.

(** C2: [completeOrder] sends the id that the latest-id read returned, as
    it is, on the transaction and on every line; no request carries another
    id, and the id is also the one the page keeps. *)
Theorem completeOrder_posts_latest_id
        (w : App.World) (st : App.State) (id : Z) :
  App.latestID w = Some id ->
  App.payment_selected (App.selectedPayment st) = true ->
  let o := App.completeOrder w st in
  In (App.PostTransaction id (App.employeeID st) (App.cartTotal st)
                          (App.to_String (App.selectedPayment st)))
     (App.requests o)
  /\ (forall r t,
         In r (App.requests o) -> App.transactionID_of r = Some t -> t = id)
  /\ App.transactionId (App.final o) = Some id.
Proof.
  intros Hid Hp o. unfold o.
  rewrite (completeOrder_paid w st Hid Hp). cbv zeta.
  split; [|split].
  - destruct (App.transactionAccepted w); simpl; auto.
  - intros r t Hin Ht.
    assert (Hhead : forall r', In r' [App.GetLatestID;
                     App.PostTransaction id (App.employeeID st) (App.cartTotal st)
                       (App.to_String (App.selectedPayment st))] ->
                   App.transactionID_of r' = Some t -> t = id).
    { intros r' [<- | [<- | []]]; simpl; congruence. }
    destruct (App.transactionAccepted w); [|now apply (Hhead r)].
    apply in_app_or in Hin. destruct Hin as [Hin | Hin]; [now apply (Hhead r)|].
    apply in_app_or in Hin. destruct Hin as [Hin | Hin];
      apply in_flat_map in Hin; destruct Hin as (ie & _ & Hin).
    + destruct Hin as [<- | [<- | []]]; simpl in Ht; congruence.
    + unfold App.settledRequests in Hin.
      destruct (App.itemAccepted w (fst ie)); [|contradiction].
      apply in_map_iff in Hin. destruct Hin as (f & <- & _). discriminate.
  - unfold App.completeOrder. rewrite Hid. simpl. rewrite Hp.
    destruct (App.transactionAccepted w); [|reflexivity].
    simpl. now destruct (settle_all_fields w
             (App.indexed (App.transactionCart st))
             (App.set_transactionId (Some id) st)) as (_ & _ & -> & _).
Qed.

Lemma completeOrder_posts_latest_id_witness :
  let w := App.mkWorld (Some 41%Z) true (fun _ => true) (fun _ => 0%Z)
                       (fun _ => (0%Z, 1%Z)) in
  let st := App.updatePaymentMethod (Some "Credit Card")
              (App.data (Some 1001%Z)) in
  In (App.PostTransaction 41 (Some 1001%Z) 0%Q "Credit Card")
     (App.requests (App.completeOrder w st))
  /\ App.transactionId (App.final (App.completeOrder w st)) = Some 41%Z.
Proof.
  intros w st.
  destruct (@completeOrder_posts_latest_id w st 41%Z eq_refl eq_refl)
    as (H1 & _ & H3).
  split; [exact H1 | exact H3].
Defined.

(** C3, amended: with no payment method selected ([null] or the empty
    string), [completeOrder] issues the latest-id read and nothing else,
    throws into its own handler, which alerts the user, and leaves the cart
    lines, the transaction entries and the completion flag as they were.
    When the read is answered, what is thrown is the missing-payment error;
    when the read is rejected, it is the rejection of the read. *)
Theorem completeOrder_without_payment (w : App.World) (st : App.State) :
  App.payment_selected (App.selectedPayment st) = false ->
  let o := App.completeOrder w st in
  App.cartItems (App.final o) = App.cartItems st
  /\ App.transactionCart (App.final o) = App.transactionCart st
  /\ App.isOrderComplete (App.final o) = App.isOrderComplete st
  /\ App.requests o = [App.GetLatestID]
  /\ forallb (fun r => negb (App.persists r)) (App.requests o) = true
  /\ App.thrown o <> None
  /\ (forall id, App.latestID w = Some id ->
                 App.thrown o = Some (App.Error "Payment method is not selected."))
  /\ In (Alert "There was an error processing your order. Please try again.")
        (App.effects o)
  /\ (App.latestID w = None ->
      App.thrown o = Some (App.Rejected App.GetLatestID)).
Proof.
  intros Hp o. unfold o, App.completeOrder.
  destruct (App.latestID w) as [id|]; simpl.
  - rewrite Hp. simpl. repeat split; auto; discriminate.
  - repeat split; auto; discriminate.
Qed.

(** C3, as stated, fails when the latest-id read is rejected: the read is
    awaited before the payment method is looked at, so with no payment
    method selected the run still fails and the cart is kept, but what the
    handler receives is the rejection of the read, not the missing-payment
    error. *)
Lemma completeOrder_without_payment_read_rejected :
  let w := App.mkWorld None true (fun _ => true) (fun _ => 0%Z)
                       (fun _ => (0%Z, 1%Z)) in
  let st := App.data (Some 1001%Z) in
  App.payment_selected (App.selectedPayment st) = false
  /\ App.thrown (App.completeOrder w st)
     = Some (App.Rejected App.GetLatestID)
  /\ App.thrown (App.completeOrder w st)
     <> Some (App.Error "Payment method is not selected.").
Proof. repeat split. discriminate. Qed.

Lemma completeOrder_without_payment_witness :
  let w := App.mkWorld (Some 41%Z) true (fun _ => true) (fun _ => 0%Z)
                       (fun _ => (0%Z, 1%Z)) in
  let line := mkLine "Plate (Chow Mein + Orange Chicken, Beijing Beef)"
                     (Some (98 # 10)%Q) (mkEntry (Some 3%Z) 7 8 9 0)
                     (Some false) None in
  let st := App.set_carts [line] [transactionEntry line] (App.data (Some 1001%Z)) in
  App.cartItems (App.final (App.completeOrder w st)) = [line]
  /\ App.requests (App.completeOrder w st) = [App.GetLatestID]
  /\ App.thrown (App.completeOrder w st)
     = Some (App.Error "Payment method is not selected.").
Proof.
  intros w line st.
  destruct (@completeOrder_without_payment w st eq_refl)
    as (H1 & _ & _ & H4 & _ & _ & H7 & _).
  split; [exact H1|]. split; [exact H4|]. apply (H7 41%Z). reflexivity.
Defined.

(** C8, as stated, fails for a line whose [transactionitems] post is
    rejected: its entry has three nonzero food ids, the item-type decrement
    is issued, and no food decrement is. *)
Lemma completeOrder_rejected_line_no_food_decrement :
  let w := App.mkWorld (Some 41%Z) true (fun _ => false) (fun _ => 0%Z)
                       (fun _ => (0%Z, 1%Z)) in
  let entry := mkEntry (Some 3%Z) 7 8 9 0 in
  let line := mkLine "Plate (Chow Mein + Orange Chicken, Beijing Beef)"
                     (Some (98 # 10)%Q) entry (Some false) None in
  let st := App.updatePaymentMethod (Some "Credit Card")
              (App.set_carts [line] [entry] (App.data (Some 1001%Z))) in
  App.foodids entry = [7; 8; 9]%Z
  /\ filter App.isItemTypeDecrement (App.requests (App.completeOrder w st))
     = [App.GetSubtractItemTypes (Some 3%Z)]
  /\ filter App.isFoodDecrement (App.requests (App.completeOrder w st)) = [].
Proof. repeat split. Qed.

(** C8, amended: in a run where the latest id is read, a payment method is
    selected and the transaction post is accepted, [completeOrder] issues
    for every transaction entry, in order, one item-type decrement for its
    base item id; and for every entry whose [transactionitems] post is
    accepted, one food decrement for each of its four food slots that is
    not zero, in slot order, and none for an entry whose post is rejected.
    No decrement is ever issued for the food id 0. *)
Theorem completeOrder_decrements (w : App.World) (st : App.State) (id : Z) :
  App.latestID w = Some id ->
  App.payment_selected (App.selectedPayment st) = true ->
  App.transactionAccepted w = true ->
  let rs := App.requests (App.completeOrder w st) in
  filter App.isItemTypeDecrement rs
  = map (fun e => App.GetSubtractItemTypes (baseItemID e)) (App.transactionCart st)
  /\ filter App.isFoodDecrement rs
     = flat_map (fun ie =>
                   if App.itemAccepted w (fst ie)
                   then map App.GetSubtract
                            (filter (fun f => negb (f =? 0)%Z)
                                    [food1 (snd ie); food2 (snd ie);
                                     food3 (snd ie); food4 (snd ie)])
                   else [])
                (App.indexed (App.transactionCart st))
  /\ ~ In (App.GetSubtract 0) rs.
Proof.
  intros Hid Hp Ha rs. unfold rs.
  rewrite (completeOrder_paid w st Hid Hp). cbv zeta. rewrite Ha.
  rewrite !filter_app, !filter_flat_map. simpl filter at 1 4.
  split; [|split].
  - rewrite (flat_map_ext _ (fun ie => [App.GetSubtractItemTypes (baseItemID (snd ie))]))
      by reflexivity.
    rewrite (flat_map_ext
               (fun ie => filter App.isItemTypeDecrement
                                 (App.settledRequests w (fst ie) (snd ie)))
               (fun _ => [])).
    + rewrite flat_map_nil, app_nil_r. simpl.
      rewrite flat_map_single.
      rewrite <- (indexed_snd (App.transactionCart st)) at 2.
      now rewrite map_map.
    + intros ie. unfold App.settledRequests.
      destruct (App.itemAccepted w (fst ie)); [|reflexivity].
      apply filter_food_map.
  - rewrite (flat_map_ext
               (fun ie => filter App.isFoodDecrement (App.lineRequests id (snd ie)))
               (fun _ => [])) by reflexivity.
    rewrite flat_map_nil. simpl.
    apply flat_map_ext. intros ie. unfold App.settledRequests.
    destruct (App.itemAccepted w (fst ie)); [|reflexivity].
    apply filter_food_map.
  - intros Hin.
    apply in_app_or in Hin. destruct Hin as [[H | [H | []]] | Hin];
      try discriminate.
    apply in_app_or in Hin. destruct Hin as [Hin | Hin];
      apply in_flat_map in Hin; destruct Hin as (ie & _ & Hin).
    + destruct Hin as [H | [H | []]]; discriminate.
    + unfold App.settledRequests in Hin.
      destruct (App.itemAccepted w (fst ie)); [|contradiction].
      apply in_map_iff in Hin. destruct Hin as (f & [= ->] & Hf).
      apply foodids_spec in Hf. destruct Hf as [_ Hf]. now apply Hf.
Qed.

Lemma completeOrder_decrements_witness :
  let w := App.mkWorld (Some 41%Z) true (fun _ => true) (fun _ => 0%Z)
                       (fun _ => (0%Z, 1%Z)) in
  let entry := mkEntry (Some 3%Z) 7 8 9 0 in
  let line := mkLine "Plate (Chow Mein + Orange Chicken, Beijing Beef)"
                     (Some (98 # 10)%Q) entry (Some false) None in
  let st := App.updatePaymentMethod (Some "Credit Card")
              (App.set_carts [line] [entry] (App.data (Some 1001%Z))) in
  filter App.isItemTypeDecrement (App.requests (App.completeOrder w st))
  = [App.GetSubtractItemTypes (Some 3%Z)]
  /\ filter App.isFoodDecrement (App.requests (App.completeOrder w st))
     = [App.GetSubtract 7; App.GetSubtract 8; App.GetSubtract 9].
Proof.
  intros w entry line st.
  destruct (@completeOrder_decrements w st 41%Z eq_refl eq_refl eq_refl)
    as (H1 & H2 & _).
  split; [exact H1 | exact H2].
Defined.


(** * Further properties of the components *)

(** ** The root cart *)

Lemma splice1_past_end {A : Type} (i : nat) (l : list A) :
  (List.length l <= i)%nat -> Js.splice1 i l = l.
Proof.
  intros H. unfold Js.splice1.
  rewrite firstn_all2 by lia. rewrite skipn_all2 by lia. apply app_nil_r.
Qed.

Lemma splice1_length {A : Type} (i : nat) (l : list A) :
  (i < List.length l)%nat -> S (List.length (Js.splice1 i l)) = List.length l.
Proof.
  intros H. unfold Js.splice1.
  rewrite length_app, length_firstn, length_skipn. lia.
Qed.

(** X1: removing the line at an index keeps the two sequences aligned; an
    index inside the cart shortens both by one, and an index past the end
    changes neither. *)
Theorem removeFromCart_keeps_alignment (index : nat) (st : App.State) :
  App.aligned st ->
  App.aligned (App.removeFromCart index st)
  /\ ((index < List.length (App.cartItems st))%nat ->
      S (List.length (App.cartItems (App.removeFromCart index st)))
      = List.length (App.cartItems st)
      /\ S (List.length (App.transactionCart (App.removeFromCart index st)))
         = List.length (App.transactionCart st))
  /\ ((List.length (App.cartItems st) <= index)%nat ->
      App.cartItems (App.removeFromCart index st) = App.cartItems st
      /\ App.transactionCart (App.removeFromCart index st)
         = App.transactionCart st).
Proof.
  intros H. split; [now apply aligned_removeFromCart|].
  assert (Hlen : List.length (App.transactionCart st)
                 = List.length (App.cartItems st)).
  { rewrite <- H. apply length_map. }
  split; intros Hi; simpl.
  - split; apply splice1_length; lia.
  - split; apply splice1_past_end; lia.
Qed.

Lemma removeFromCart_keeps_alignment_witness :
  let line := mkLine "Appetizer: Chicken Egg Roll" (Some 2%Q)
                     (mkEntry (Some 3%Z) 7 0 0 0) None None in
  let other := mkLine "Side: Chow Mein (Medium)" (Some (44 # 10)%Q)
                      (mkEntry (Some 10%Z) 5 0 0 0) (Some false)
                      (Some "Medium") in
  let st := App.set_carts [line; other]
                          [transactionEntry line; transactionEntry other]
                          (App.data None) in
  App.aligned (App.removeFromCart 0 st)
  /\ App.cartItems (App.removeFromCart 0 st) = [other].
Proof.
  intros line other st.
  destruct (@removeFromCart_keeps_alignment 0 st eq_refl) as (H & _ & _).
  split; [exact H | reflexivity].
Defined.

(** X2: what the Plate and the a la carte components emit on
    [addToCart], handled by the root, keeps the two sequences aligned,
    whether the lookups are answered or not. *)
Theorem menu_additions_keep_alignment
        (api : Catalogue) (p : Plate.State) (a : ALaCarte.State)
        (st : App.State) :
  App.aligned st ->
  App.aligned (App.dispatch (snd (Plate.addToCart api p)) st)
  /\ App.aligned (App.dispatch (snd (ALaCarte.addToCart a)) st).
Proof.
  intros H. split; [now apply aligned_plate | now apply aligned_alacarte].
Qed.

Lemma menu_additions_keep_alignment_witness :
  let api := mkCatalogue (fun _ => Some 3%Z) (fun _ => Some 7%Z) in
  let p := Plate.mkState [] [] (Some (98 # 10)%Q)
                         (Some (Js.ItemStr "Chow Mein"))
                         [Js.ItemStr "Orange Chicken"; Js.ItemStr "Beijing Beef"]
                         [] in
  App.aligned (App.dispatch (snd (Plate.addToCart api p)) (App.data None))
  /\ List.length
       (App.cartItems (App.dispatch (snd (Plate.addToCart api p)) (App.data None)))
     = 1%nat.
Proof.
  intros api p.
  destruct (@menu_additions_keep_alignment api p ALaCarte.data (App.data None)
                                           eq_refl) as [H _].
  split; [exact H | reflexivity].
Defined.

Lemma dispatch_pairs (lines : list CartLine) (st : App.State) :
  let st' :=
    App.dispatch
      (flat_map (fun item =>
                   [Emit_addToCart (Single item);
                    Emit_addToTransactionCart (transactionEntry item)])
                lines)
      st in
  App.cartItems st' = App.cartItems st ++ lines
  /\ App.transactionCart st'
     = App.transactionCart st ++ map transactionEntry lines.
Proof.
  revert st; induction lines as [|l lines IH]; intros st; cbv zeta.
  - simpl. now rewrite !app_nil_r.
  - cbn [flat_map]. rewrite dispatch_app.
    destruct (IH (App.dispatch
                    [Emit_addToCart (Single l);
                     Emit_addToTransactionCart (transactionEntry l)] st))
      as [H1 H2].
    cbv zeta in H1, H2. rewrite H1, H2. simpl.
    now rewrite <- !app_assoc.
Qed.

(** X3: the a la carte [addToCart] hands the root every selected side and
    then every selected entree, in order, each with its own transaction
    entry, and empties both selections, so that nothing can be added
    twice. *)
Theorem alacarte_addToCart_delivers (a : ALaCarte.State) (st : App.State) :
  let st' := App.dispatch (snd (ALaCarte.addToCart a)) st in
  App.cartItems st'
  = App.cartItems st ++ ALaCarte.selectedSides a ++ ALaCarte.selectedEntrees a
  /\ App.transactionCart st'
     = App.transactionCart st
         ++ map transactionEntry
                (ALaCarte.selectedSides a ++ ALaCarte.selectedEntrees a)
  /\ ALaCarte.canAddToCart (fst (ALaCarte.addToCart a)) = false
  /\ snd (ALaCarte.addToCart (fst (ALaCarte.addToCart a))) = [].
Proof.
  cbv zeta. unfold ALaCarte.addToCart.
  destruct (ALaCarte.canAddToCart a) eqn:E.
  - cbn [fst snd].
    destruct (dispatch_pairs
                (ALaCarte.selectedSides a ++ ALaCarte.selectedEntrees a) st)
      as [H1 H2].
    cbv zeta in H1, H2. rewrite H1, H2. repeat split.
  - cbn [fst snd]. rewrite E. unfold ALaCarte.canAddToCart in E.
    apply orb_false_elim in E. destruct E as [E1 E2].
    destruct (ALaCarte.selectedSides a); [|discriminate].
    destruct (ALaCarte.selectedEntrees a); [|discriminate].
    simpl. rewrite !app_nil_r. repeat split.
Qed.

(** ** Plate: entree selection *)

Lemma includes_In (x : Js.Item) (l : list Js.Item) :
  Js.includes x l = true <-> In x l.
Proof.
  unfold Js.includes. rewrite existsb_exists. split.
  - intros (y & Hy & E). apply strict_eq_true in E. now subst.
  - intros H. exists x. split; [exact H | apply strict_eq_refl].
Qed.

Lemma includes_false (x : Js.Item) (l : list Js.Item) :
  Js.includes x l = false <-> ~ In x l.
Proof.
  rewrite <- includes_In. destruct (Js.includes x l); split; intros H;
    congruence.
Qed.

Lemma filter_out_absent (e : Js.Item) (l : list Js.Item) :
  ~ In e l -> filter (fun item => negb (Js.strict_eq item e)) l = l.
Proof.
  induction l as [|x l IH]; simpl; intros H; [reflexivity|].
  destruct (Js.strict_eq x e) eqn:E.
  - apply strict_eq_true in E. subst. exfalso. apply H. now left.
  - simpl. rewrite IH; [reflexivity | intros Hin; apply H; now right].
Qed.

Lemma filter_out_In (e x : Js.Item) (l : list Js.Item) :
  In x (filter (fun item => negb (Js.strict_eq item e)) l) <-> In x l /\ x <> e.
Proof.
  rewrite filter_In. rewrite negb_true_iff.
  split; intros [H1 H2]; split; auto.
  - intros ->. now rewrite strict_eq_refl in H2.
  - destruct (Js.strict_eq x e) eqn:E; [|reflexivity].
    apply strict_eq_true in E. contradiction.
Qed.

(** X4: [selectEntree] never leaves more than two entrees selected, and
    never selects an entree twice. *)
Theorem selectEntree_at_most_two (e : Js.Item) (st : Plate.State) :
  (List.length (Plate.selectedEntrees st) <= 2)%nat ->
  NoDup (Plate.selectedEntrees st) ->
  (List.length (Plate.selectedEntrees (Plate.selectEntree e st)) <= 2)%nat
  /\ NoDup (Plate.selectedEntrees (Plate.selectEntree e st)).
Proof.
  intros Hl Hn. unfold Plate.selectEntree.
  destruct (Js.includes e (Plate.selectedEntrees st)) eqn:Hin; simpl.
  - split.
    + etransitivity; [apply filter_length_le | exact Hl].
    + now apply NoDup_filter.
  - destruct (List.length (Plate.selectedEntrees st) <? 2)%nat eqn:Hlt; simpl.
    + apply Nat.ltb_lt in Hlt. split.
      * rewrite length_app. simpl. lia.
      * apply NoDup_app; [exact Hn | repeat constructor; intros [] |].
        intros x Hx [<- | []]. apply includes_false in Hin. contradiction.
    + now split.
Qed.

Lemma selectEntree_at_most_two_witness :
  let st := Plate.mkState [] [] None None
                          [Js.ItemStr "Orange Chicken"; Js.ItemStr "Beijing Beef"]
                          [] in
  (List.length
     (Plate.selectedEntrees (Plate.selectEntree (Js.ItemStr "Beijing Beef") st))
   <= 2)%nat
  /\ NoDup (Plate.selectedEntrees
              (Plate.selectEntree (Js.ItemStr "Beijing Beef") st)).
Proof.
  intros st. apply (@selectEntree_at_most_two (Js.ItemStr "Beijing Beef") st).
  - simpl. lia.
  - repeat constructor; simpl; intuition discriminate.
Defined.

(** X5: with room left, selecting an entree that is not selected and then
    selecting it again gives back the state before the two clicks. *)
Theorem selectEntree_twice_restores (e : Js.Item) (st : Plate.State) :
  Js.includes e (Plate.selectedEntrees st) = false ->
  (List.length (Plate.selectedEntrees st) < 2)%nat ->
  Plate.selectEntree e (Plate.selectEntree e st) = st.
Proof.
  intros Hin Hlt. unfold Plate.selectEntree at 2.
  rewrite Hin. apply Nat.ltb_lt in Hlt. rewrite Hlt.
  unfold Plate.selectEntree. simpl.
  assert (Hinc : Js.includes e (Plate.selectedEntrees st ++ [e]) = true).
  { apply includes_In. apply in_or_app. right. now left. }
  rewrite Hinc. unfold Plate.set_selectedEntrees. simpl.
  rewrite filter_app. simpl. rewrite strict_eq_refl. simpl.
  rewrite app_nil_r, filter_out_absent by now apply includes_false.
  destruct st; reflexivity.
Qed.

Lemma selectEntree_twice_restores_witness :
  let st := Plate.mkState [] [] None None [Js.ItemStr "Orange Chicken"] [] in
  Plate.selectEntree (Js.ItemStr "Beijing Beef")
                     (Plate.selectEntree (Js.ItemStr "Beijing Beef") st)
  = st.
Proof.
  intros st. apply selectEntree_twice_restores.
  - reflexivity.
  - simpl. lia.
Defined.

(** X6: selecting an entree that is selected removes it, and only it. *)
Theorem selectEntree_deselects (e : Js.Item) (st : Plate.State) :
  Js.includes e (Plate.selectedEntrees st) = true ->
  Js.includes e (Plate.selectedEntrees (Plate.selectEntree e st)) = false
  /\ (forall x, x <> e ->
                Js.includes x (Plate.selectedEntrees (Plate.selectEntree e st))
                = Js.includes x (Plate.selectedEntrees st))
  /\ Plate.selectedSide (Plate.selectEntree e st) = Plate.selectedSide st.
Proof.
  intros Hin. unfold Plate.selectEntree. rewrite Hin. simpl.
  split; [|split; [|reflexivity]].
  - apply includes_false. rewrite filter_out_In. intros [_ H]. now apply H.
  - intros x Hx.
    destruct (Js.includes x (Plate.selectedEntrees st)) eqn:E.
    + apply includes_In. apply filter_out_In. split; [|exact Hx].
      now apply includes_In.
    + apply includes_false. rewrite filter_out_In. intros [H _].
      apply includes_false in E. contradiction.
Qed.

Lemma selectEntree_deselects_witness :
  let st := Plate.mkState [] [] None None
                          [Js.ItemStr "Orange Chicken"; Js.ItemStr "Beijing Beef"]
                          [] in
  Js.includes (Js.ItemStr "Orange Chicken")
              (Plate.selectedEntrees
                 (Plate.selectEntree (Js.ItemStr "Orange Chicken") st))
  = false.
Proof.
  intros st.
  destruct (@selectEntree_deselects (Js.ItemStr "Orange Chicken") st eq_refl)
    as [H _].
  exact H.
Defined.

(** ** Plate: addToCart *)

Lemma promise_all_rejected {A : Type} (rs : list (option A)) :
  In None rs -> promise_all rs = None.
Proof.
  induction rs as [|[r|] rs IH]; simpl.
  - contradiction.
  - intros [H | H]; [discriminate|]. now rewrite IH.
  - reflexivity.
Qed.

(** X7: when the base item id lookup or one of the food id lookups is
    rejected, the Plate keeps its selection, emits nothing to the root,
    whose state is therefore unchanged, and alerts the user. *)
Theorem plate_addToCart_rejected
        (api : Catalogue) (st : Plate.State) (app : App.State) :
  Plate.canAddToCart st = true ->
  itemid api "Plate" = None
  \/ In None
        (map (foodid api)
             (Plate.getSideName (Plate.selectedSide st)
                :: map (fun entree => Plate.getEntreeName (Some entree))
                       (Plate.selectedEntrees st))) ->
  fst (Plate.addToCart api st) = st
  /\ App.dispatch (snd (Plate.addToCart api st)) app = app
  /\ exists msg, In (Alert msg) (snd (Plate.addToCart api st)).
Proof.
  intros Hc H. unfold Plate.addToCart. rewrite Hc.
  destruct (itemid api "Plate") as [base|].
  - destruct H as [H | H]; [discriminate|].
    cbv zeta. rewrite (promise_all_rejected _ H). simpl.
    repeat split. eexists. right. left. reflexivity.
  - simpl. repeat split. eexists. right. left. reflexivity.
Qed.

Lemma plate_addToCart_rejected_witness :
  let api := mkCatalogue (fun _ => None) (fun _ => Some 7%Z) in
  let st := Plate.mkState [] [] (Some (98 # 10)%Q)
                          (Some (Js.ItemStr "Chow Mein"))
                          [Js.ItemStr "Orange Chicken"; Js.ItemStr "Beijing Beef"]
                          [] in
  fst (Plate.addToCart api st) = st
  /\ App.dispatch (snd (Plate.addToCart api st)) (App.data None) = App.data None.
Proof.
  intros api st.
  destruct (@plate_addToCart_rejected api st (App.data None) eq_refl)
    as (H1 & H2 & _).
  - left. reflexivity.
  - split; [exact H1 | exact H2].
Defined.

Lemma string_app_assoc (a b c : string) :
  ((a ++ b) ++ c = a ++ b ++ c)%string.
Proof. induction a as [|x a IH]; simpl; [reflexivity | now rewrite IH]. Qed.

(** X8: when every lookup is answered, the Plate emits one line whose
    transaction entry is the base item id of "Plate", the food id of the
    side, the food ids of the two entrees in the order they were selected,
    and 0; the label names the side and the two entrees; the price is set;
    and the selection is emptied, so the same plate cannot be added
    twice. *)
Theorem plate_addToCart_entry (api : Catalogue) (st : Plate.State) (base : Z) :
  Plate.canAddToCart st = true ->
  itemid api "Plate" = Some base ->
  (forall n, foodid api n <> None) ->
  exists e1 e2 f0 f1 f2 line,
    Plate.selectedEntrees st = [e1; e2]
    /\ foodid api (Plate.getSideName (Plate.selectedSide st)) = Some f0
    /\ foodid api (Plate.getEntreeName (Some e1)) = Some f1
    /\ foodid api (Plate.getEntreeName (Some e2)) = Some f2
    /\ Plate.addToCart api st
       = (Plate.set_selectedEntrees [] (Plate.set_selectedSide None st),
          [Emit_addToCart (Single line);
           Emit_addToTransactionCart (mkEntry (Some base) f0 f1 f2 0)])
    /\ transactionEntry line = mkEntry (Some base) f0 f1 f2 0
    /\ name line
       = ("Plate (" ++ Plate.getSideName (Plate.selectedSide st) ++ " + "
            ++ Plate.getEntreeName (Some e1) ++ ", "
            ++ Plate.getEntreeName (Some e2) ++ ")")%string
    /\ price line <> None
    /\ Plate.canAddToCart (fst (Plate.addToCart api st)) = false.
Proof.
  intros Hc Hb Hf. unfold Plate.addToCart. rewrite Hc, Hb.
  destruct (plate_canAddToCart_inv st Hc) as [_ Hl].
  destruct (Plate.selectedEntrees st) as [|e1 [|e2 [|e3 l]]] eqn:El;
    try discriminate.
  cbn [map promise_all].
  destruct (foodid api (Plate.getSideName (Plate.selectedSide st))) as [f0|] eqn:E0;
    [|now apply Hf in E0].
  destruct (foodid api (Plate.getEntreeName (Some e1))) as [f1|] eqn:E1;
    [|now apply Hf in E1].
  destruct (foodid api (Plate.getEntreeName (Some e2))) as [f2|] eqn:E2;
    [|now apply Hf in E2].
  exists e1, e2, f0, f1, f2. eexists.
  split; [reflexivity|].
  do 3 (split; [first [reflexivity | assumption]|]).
  split; [reflexivity|]. split; [reflexivity|].
  split; [cbn [name Plate.join]; now rewrite string_app_assoc|].
  split; [discriminate | reflexivity].
Qed.

Lemma plate_addToCart_entry_witness :
  let api := mkCatalogue (fun _ => Some 3%Z)
                         (fun n => Some (Z.of_nat (String.length n))) in
  let st := Plate.mkState [] [] (Some (98 # 10)%Q)
                          (Some (Js.ItemStr "Chow Mein"))
                          [Js.ItemStr "Orange Chicken"; Js.ItemStr "Beijing Beef"]
                          [] in
  exists line,
    snd (Plate.addToCart api st)
    = [Emit_addToCart (Single line);
       Emit_addToTransactionCart (mkEntry (Some 3%Z) 9 14 12 0)].
Proof.
  intros api st.
  destruct (@plate_addToCart_entry api st 3%Z eq_refl eq_refl)
    as (e1 & e2 & f0 & f1 & f2 & line & El & E0 & E1 & E2 & H & _).
  - intros n. simpl. discriminate.
  - exists line. rewrite H. simpl.
    injection El as <- <-. simpl in E0, E1, E2.
    injection E0 as <-. injection E1 as <-. injection E2 as <-. reflexivity.
Defined.

Lemma filter_nonempty_existsb {A : Type} (p : A -> bool) (l : list A) :
  (0 <? List.length (filter p l))%nat = existsb p l.
Proof.
  induction l as [|x l IH]; simpl; [reflexivity|].
  destruct (p x); simpl; [reflexivity | exact IH].
Qed.

(** X9: the line a Plate emits is flagged premium exactly when one of its
    two entrees is in the premium list. *)
Theorem plate_line_premium_flag
        (api : Catalogue) (st st' : Plate.State)
        (line : CartLine) (entry : TransactionEntry) :
  Plate.addToCart api st
  = (st', [Emit_addToCart (Single line); Emit_addToTransactionCart entry]) ->
  isPremium line
  = Some (existsb (Plate.isPremium st) (Plate.selectedEntrees st))
  /\ transactionEntry line = entry
  /\ size line = None.
Proof.
  intros H. unfold Plate.addToCart in H.
  destruct (Plate.canAddToCart st); [|discriminate].
  destruct (itemid api "Plate") as [b|]; [|discriminate].
  destruct (promise_all _) as [[|f0 [|f1 [|f2 fs]]]|]; try discriminate.
  injection H as _ Hline Hentry. subst line entry. simpl.
  rewrite premiumCount_filter, filter_nonempty_existsb. repeat split.
Qed.

Lemma plate_line_premium_flag_witness :
  let api := mkCatalogue (fun _ => Some 3%Z) (fun _ => Some 7%Z) in
  let st := Plate.mkState [] [] (Some (98 # 10)%Q)
                          (Some (Js.ItemStr "Chow Mein"))
                          [Js.ItemStr "Orange Chicken";
                           Js.ItemStr "Honey Walnut Shrimp"]
                          ["Honey Walnut Shrimp"] in
  exists line,
    In (Emit_addToCart (Single line)) (snd (Plate.addToCart api st))
    /\ isPremium line = Some true.
Proof.
  intros api st.
  assert (H : exists st' line entry,
             Plate.addToCart api st
             = (st', [Emit_addToCart (Single line);
                      Emit_addToTransactionCart entry])).
  { do 3 eexists. vm_compute. reflexivity. }
  destruct H as (st' & line & entry & H).
  destruct (plate_line_premium_flag _ _ H) as (Hp & _ & _).
  exists line. split; [rewrite H; now left | exact Hp].
Defined.

(** ** Appetizer *)

Lemma findIndex_app_last {A : Type} (p : A -> bool) (l : list A) (a : A) :
  (forall x, In x l -> p x = false) -> p a = true ->
  Js.findIndex p (l ++ [a]) = Some (List.length l).
Proof.
  intros Hl Ha. induction l as [|x l IH]; simpl.
  - now rewrite Ha.
  - rewrite (Hl x) by now left.
    rewrite IH; [reflexivity | intros y Hy; apply Hl; now right].
Qed.

Lemma findIndex_absent {A : Type} (p : A -> bool) (l : list A) :
  (forall x, In x l -> p x = false) -> Js.findIndex p l = None.
Proof.
  intros Hl. induction l as [|x l IH]; simpl; [reflexivity|].
  rewrite (Hl x) by now left.
  rewrite IH; [reflexivity | intros y Hy; apply Hl; now right].
Qed.

Lemma splice1_last {A : Type} (l : list A) (a : A) :
  Js.splice1 (List.length l) (l ++ [a]) = l.
Proof.
  unfold Js.splice1. induction l as [|x l IH]; simpl.
  - reflexivity.
  - simpl in IH. now rewrite IH.
Qed.

Lemma strict_eq_false_of_absent (a : Js.Item) (l : list Js.Item) :
  ~ In a l -> forall x, In x l -> Js.strict_eq x a = false.
Proof.
  intros Hn x Hx. destruct (Js.strict_eq x a) eqn:E; [|reflexivity].
  apply strict_eq_true in E. subst. contradiction.
Qed.

(** X10: clicking twice an appetizer that is not selected gives back the
    selection as it was. *)
Theorem toggleAppetizer_twice_restores (a : Js.Item) (st : Appetizer.State) :
  Appetizer.isSelected a st = false ->
  Appetizer.toggleAppetizer a (Appetizer.toggleAppetizer a st) = st.
Proof.
  intros H. apply includes_false in H.
  pose proof (@strict_eq_false_of_absent a _ H) as Hp.
  unfold Appetizer.toggleAppetizer at 2.
  rewrite (@findIndex_absent _ _ _ Hp).
  unfold Appetizer.toggleAppetizer. simpl.
  rewrite (@findIndex_app_last _ _ _ a Hp (strict_eq_refl a)).
  unfold Appetizer.set_selectedAppetizers. simpl.
  rewrite splice1_last. destruct st; reflexivity.
Qed.

Lemma toggleAppetizer_twice_restores_witness :
  let st := Appetizer.mkState [] [Js.ItemStr "Chicken Egg Roll"] (Some 2%Q) in
  Appetizer.toggleAppetizer (Js.ItemStr "Cream Cheese Rangoon")
    (Appetizer.toggleAppetizer (Js.ItemStr "Cream Cheese Rangoon") st)
  = st.
Proof.
  intros st. apply toggleAppetizer_twice_restores. reflexivity.
Defined.

Lemma splice1_removes {A : Type} (l : list A) (i : nat) (a : A) :
  NoDup l -> nth_error l i = Some a ->
  ~ In a (Js.splice1 i l) /\ NoDup (Js.splice1 i l)
  /\ forall x, x <> a -> (In x (Js.splice1 i l) <-> In x l).
Proof.
  intros Hn Hi. unfold Js.splice1.
  destruct (nth_error_split l i Hi) as (l1 & l2 & -> & <-).
  assert (E : firstn (List.length l1) (l1 ++ a :: l2)
              ++ skipn (S (List.length l1)) (l1 ++ a :: l2) = l1 ++ l2).
  { clear. induction l1 as [|x l1 IH]; simpl; [reflexivity|].
    simpl in IH. now rewrite IH. }
  rewrite E.
  split; [now apply NoDup_remove_2|].
  split; [now apply NoDup_remove_1 with (a := a)|].
  intros x Hx. rewrite !in_app_iff. simpl. intuition congruence.
Qed.

(** X11: clicking a selected appetizer deselects it and leaves every other
    appetizer as it was; the selection, free of repetitions before, is so
    after every click. *)
Theorem toggleAppetizer_deselects (a : Js.Item) (st : Appetizer.State) :
  NoDup (Appetizer.selectedAppetizers st) ->
  NoDup (Appetizer.selectedAppetizers (Appetizer.toggleAppetizer a st))
  /\ (Appetizer.isSelected a st = true ->
      Appetizer.isSelected a (Appetizer.toggleAppetizer a st) = false)
  /\ (Appetizer.isSelected a st = false ->
      Appetizer.isSelected a (Appetizer.toggleAppetizer a st) = true)
  /\ (forall x, x <> a ->
                Appetizer.isSelected x (Appetizer.toggleAppetizer a st)
                = Appetizer.isSelected x st).
Proof.
  intros Hn. unfold Appetizer.toggleAppetizer, Appetizer.isSelected.
  destruct (Js.findIndex _ _) as [i|] eqn:E; simpl.
  - destruct (findIndex_Some _ _ E) as (y & Hy & Hp).
    apply strict_eq_true in Hp. subst y.
    destruct (@splice1_removes _ _ _ _ Hn Hy) as (H1 & H2 & H3).
    split; [exact H2|]. split; [intros _; now apply includes_false|].
    split.
    + intros Hf. apply includes_false in Hf. exfalso. apply Hf.
      eapply nth_error_In; eauto.
    + intros x Hx.
      destruct (Js.includes x (Appetizer.selectedAppetizers st)) eqn:Ex.
      * apply includes_In. apply H3; [exact Hx | now apply includes_In].
      * apply includes_false. rewrite H3 by exact Hx. now apply includes_false.
  - pose proof (findIndex_None _ _ E) as Hp.
    assert (Ha : ~ In a (Appetizer.selectedAppetizers st)).
    { intros Hin. specialize (Hp a Hin). cbv beta in Hp.
      now rewrite strict_eq_refl in Hp. }
    split.
    { apply NoDup_app; [exact Hn | repeat constructor; intros [] |].
      intros x Hx [<- | []]. contradiction. }
    split; [intros Hs; apply includes_In in Hs; contradiction|].
    split; [intros _; apply includes_In, in_or_app; right; now left|].
    intros x Hx.
    destruct (Js.includes x (Appetizer.selectedAppetizers st)) eqn:Ex.
    + apply includes_In, in_or_app. left. now apply includes_In.
    + apply includes_false. rewrite in_app_iff. simpl.
      apply includes_false in Ex. intuition congruence.
Qed.

Lemma toggleAppetizer_deselects_witness :
  let st := Appetizer.mkState []
              [Js.ItemStr "Chicken Egg Roll"; Js.ItemStr "Cream Cheese Rangoon"]
              (Some 2%Q) in
  Appetizer.isSelected (Js.ItemStr "Chicken Egg Roll")
    (Appetizer.toggleAppetizer (Js.ItemStr "Chicken Egg Roll") st)
  = false.
Proof.
  intros st.
  destruct (@toggleAppetizer_deselects (Js.ItemStr "Chicken Egg Roll") st)
    as (_ & H & _).
  - repeat constructor; simpl; intuition discriminate.
  - apply H. reflexivity.
Defined.

Lemma promise_all_Forall2 {A B : Type} (f : A -> option B) (l : list A)
      (ids : list B) :
  promise_all (map f l) = Some ids ->
  Forall2 (fun x id => f x = Some id) l ids.
Proof.
  revert ids; induction l as [|x l IH]; intros ids; simpl.
  - intros [= <-]. constructor.
  - destruct (f x) as [y|] eqn:E; [|discriminate].
    destruct (promise_all (map f l)) as [ys|]; [|discriminate].
    intros [= <-]. constructor; [exact E | now apply IH].
Qed.

(** X12: when every lookup is answered, the appetizer component hands the
    root one line per selected appetizer, in order; each line is named
    after its appetizer, carries the single appetizer price, and records
    the entry made of the base item id of "Appetizer" and the food id of
    that appetizer; the selection is then emptied. *)
Theorem appetizer_lines_carry_own_entries
        (api : Catalogue) (a : Appetizer.State) (base : Z) :
  Appetizer.canAddToCart a = true ->
  itemid api "Appetizer" = Some base ->
  (forall n, foodid api n <> None) ->
  exists lines first,
    snd (Appetizer.addToCart api a)
    = [Emit_addToCart (Batch lines); Emit_addToTransactionCart first]
    /\ Forall2
         (fun line appetizer =>
            exists fid,
              foodid api (Appetizer.getAppetizerName appetizer) = Some fid
              /\ name line
                 = ("Appetizer: " ++ Appetizer.getAppetizerName appetizer)%string
              /\ price line = Appetizer.price a
              /\ transactionEntry line = mkEntry (Some base) fid 0 0 0)
         lines (Appetizer.selectedAppetizers a)
    /\ Appetizer.selectedAppetizers (fst (Appetizer.addToCart api a)) = [].
Proof.
  intros Hc Hb Hf. unfold Appetizer.addToCart. rewrite Hc, Hb.
  destruct (promise_all_answered
              (fun appetizer => foodid api (Appetizer.getAppetizerName appetizer))
              (Appetizer.selectedAppetizers a)) as [ids Hids].
  { intros x. apply Hf. }
  rewrite Hids. apply promise_all_Forall2 in Hids.
  unfold Appetizer.canAddToCart in Hc. apply Nat.ltb_lt in Hc.
  destruct Hids as [|a0 i0 sel ids H0 Hrest]; [simpl in Hc; lia|].
  cbn [map snd fst]. do 2 eexists. split; [reflexivity|].
  split; [|reflexivity].
  cbn [combine map]. constructor.
  - exists i0. repeat split. exact H0.
  - clear Hc H0. induction Hrest as [|a1 i1 sel ids H1 Hrest IH]; simpl.
    + constructor.
    + constructor; [|exact IH]. exists i1. repeat split. exact H1.
Qed.

Lemma appetizer_lines_carry_own_entries_witness :
  let api := mkCatalogue (fun _ => Some 3%Z)
                         (fun n => Some (Z.of_nat (String.length n))) in
  let a := Appetizer.mkState []
             [Js.ItemStr "Chicken Egg Roll"; Js.ItemStr "Cream Cheese Rangoon"]
             (Some 2%Q) in
  exists lines first,
    snd (Appetizer.addToCart api a)
    = [Emit_addToCart (Batch lines); Emit_addToTransactionCart first]
    /\ List.length lines = 2%nat.
Proof.
  intros api a.
  destruct (@appetizer_lines_carry_own_entries api a 3%Z eq_refl eq_refl)
    as (lines & first & H & HF & _).
  - intros n. simpl. discriminate.
  - exists lines, first. split; [exact H|].
    apply Forall2_length in HF. exact HF.
Defined.

(** X13: when the base item id lookup or one food id lookup is rejected,
    the appetizer component keeps its selection and emits nothing to the
    root, whose state is unchanged; the user is alerted. *)
Theorem appetizer_addToCart_rejected
        (api : Catalogue) (a : Appetizer.State) (app : App.State) :
  Appetizer.canAddToCart a = true ->
  itemid api "Appetizer" = None
  \/ In None
        (map (fun appetizer => foodid api (Appetizer.getAppetizerName appetizer))
             (Appetizer.selectedAppetizers a)) ->
  fst (Appetizer.addToCart api a) = a
  /\ App.dispatch (snd (Appetizer.addToCart api a)) app = app
  /\ exists msg, In (Alert msg) (snd (Appetizer.addToCart api a)).
Proof.
  intros Hc H. unfold Appetizer.addToCart. rewrite Hc.
  destruct (itemid api "Appetizer") as [base|].
  - destruct H as [H | H]; [discriminate|].
    rewrite (promise_all_rejected _ H). simpl.
    repeat split. eexists. right. left. reflexivity.
  - simpl. repeat split. eexists. right. left. reflexivity.
Qed.

Lemma appetizer_addToCart_rejected_witness :
  let api := mkCatalogue (fun _ => Some 3%Z)
               (fun n => if String.eqb n "Cream Cheese Rangoon"
                         then None else Some 7%Z) in
  let a := Appetizer.mkState []
             [Js.ItemStr "Chicken Egg Roll"; Js.ItemStr "Cream Cheese Rangoon"]
             (Some 2%Q) in
  fst (Appetizer.addToCart api a) = a
  /\ App.dispatch (snd (Appetizer.addToCart api a)) (App.data None)
     = App.data None.
Proof.
  intros api a.
  destruct (@appetizer_addToCart_rejected api a (App.data None) eq_refl)
    as (H1 & H2 & _).
  - right. simpl. right. left. reflexivity.
  - split; [exact H1 | exact H2].
Defined.

(** ** A la carte: the size dialog *)

(** X14: a pick whose food id lookup is rejected changes neither selected
    list, and leaves the size dialog open on the item. *)
Theorem pick_rejected_keeps_selection
        (api : Catalogue) (type : ALaCarte.ItemType) (item : Js.Item)
        (sz : ALaCarte.SizeOption) (st : ALaCarte.State) :
  foodid api (ALaCarte.typedName type (Some item)) = None ->
  let st' := ALaCarte.pick api type item sz st in
  ALaCarte.selectedSides st' = ALaCarte.selectedSides st
  /\ ALaCarte.selectedEntrees st' = ALaCarte.selectedEntrees st
  /\ ALaCarte.showSizeModal st' = true
  /\ ALaCarte.currentItem st' = Some item
  /\ ALaCarte.canAddToCart st' = ALaCarte.canAddToCart st.
Proof.
  intros Hf. cbv zeta. unfold ALaCarte.pick, ALaCarte.selectSize.
  destruct (toggle_getFoodID api type item st) as (Hfood & _ & _).
  cbv zeta in Hfood. rewrite Hfood, Hf. simpl fst.
  destruct type; repeat split.
Qed.

Lemma pick_rejected_keeps_selection_witness :
  let api := mkCatalogue (fun _ => Some 3%Z) (fun _ => None) in
  let sz := ALaCarte.mkSize "Medium" (Some (44 # 10)%Q) (Some 10%Z) in
  let st' := ALaCarte.pick api ALaCarte.side (Js.ItemStr "Chow Mein") sz
                           ALaCarte.data in
  ALaCarte.selectedSides st' = [] /\ ALaCarte.showSizeModal st' = true.
Proof.
  intros api sz st'.
  destruct (@pick_rejected_keeps_selection api ALaCarte.side
              (Js.ItemStr "Chow Mein") sz ALaCarte.data eq_refl)
    as (H1 & _ & H3 & _).
  split; [exact H1 | exact H3].
Defined.

(** The list a successful pick writes. *)
Lemma pick_selectedList (api : Catalogue) (type : ALaCarte.ItemType)
      (item : Js.Item) (sz : ALaCarte.SizeOption) (st : ALaCarte.State)
      (f : Z) :
  foodid api (ALaCarte.typedName type (Some item)) = Some f ->
  exists line,
    name line = ALaCarte.label type (ALaCarte.typedName type (Some item))
                               (ALaCarte.size_name sz)
    /\ size line = Some (ALaCarte.size_name sz)
    /\ transactionEntry line = mkEntry (ALaCarte.size_baseItemID sz) f 0 0 0
    /\ price line
       = (if ALaCarte.is_entree type
             && Js.includes_string (ALaCarte.getEntreeName (Some item))
                                   (ALaCarte.premiumEntrees st)
          then ALaCarte.premiumPrices (ALaCarte.size_name sz)
          else ALaCarte.size_price sz)
    /\ isPremium line
       = Some (Js.includes_string (ALaCarte.getEntreeName (Some item))
                                  (ALaCarte.premiumEntrees st))
    /\ ALaCarte.selectedList type (ALaCarte.pick api type item sz st)
       = match Js.findIndex
                 (fun l => Js.str_includes (name l)
                             (ALaCarte.typedName type (Some item)))
                 (ALaCarte.selectedList type st) with
         | Some i => Js.set_nth i line (ALaCarte.selectedList type st)
         | None => ALaCarte.selectedList type st ++ [line]
         end.
Proof.
  intros Hf. unfold ALaCarte.pick.
  destruct (toggle_getFoodID api type item st) as (Hfood & Hcur & Hsel).
  set (st1 := match type with
              | ALaCarte.side => ALaCarte.toggleSides item st
              | ALaCarte.entree => ALaCarte.toggleEntrees item st
              end) in *.
  rewrite Hf in Hfood.
  rewrite (selectSize_selectedList api sz type st1 Hfood).
  rewrite Hcur, Hsel. eexists.
  split; [|split; [|split; [|split; [|split; [|reflexivity]]]]];
    try reflexivity.
  - simpl. unfold ALaCarte.linePrice, ALaCarte.isPremium. rewrite Hcur.
    destruct type; reflexivity.
  - simpl. unfold ALaCarte.isPremium. destruct type; reflexivity.
Qed.



Lemma find_after_write {A : Type} (p : A -> bool) (v : A) (l : list A) :
  p v = true ->
  find p (match Js.findIndex p l with
          | Some i => Js.set_nth i v l
          | None => l ++ [v]
          end) = Some v.
Proof.
  intros Hv. induction l as [|x l IH]; simpl.
  - now rewrite Hv.
  - destruct (p x) eqn:Ex; simpl.
    + now rewrite Hv.
    + destruct (Js.findIndex p l) as [i|]; simpl; rewrite Ex; exact IH.
Qed.

Lemma written_In {A : Type} (p : A -> bool) (v : A) (l : list A) :
  In v (match Js.findIndex p l with
        | Some i => Js.set_nth i v l
        | None => l ++ [v]
        end).
Proof.
  destruct (Js.findIndex p l) as [i|] eqn:E.
  - apply set_nth_In. eapply findIndex_lt; eauto.
  - apply in_or_app. right. now left.
Qed.







(** ** A la carte: loading the size prices *)

Lemma fetchPricesOf_names (prices : string -> option Q)
      (type : ALaCarte.ItemType) (sizes : list ALaCarte.SizeOption) :
  map ALaCarte.size_name (fst (ALaCarte.fetchPricesOf prices type sizes))
  = map ALaCarte.size_name sizes
  /\ map ALaCarte.size_baseItemID
         (fst (ALaCarte.fetchPricesOf prices type sizes))
     = map ALaCarte.size_baseItemID sizes.
Proof.
  induction sizes as [|sz rest [IH1 IH2]]; simpl; [now split|].
  destruct (prices _); simpl; [|now split].
  rewrite IH1, IH2. now split.
Qed.

Lemma fetchPricesOf_answered (prices : string -> option Q)
      (type : ALaCarte.ItemType) (sizes : list ALaCarte.SizeOption) :
  (forall n, prices n <> None) ->
  snd (ALaCarte.fetchPricesOf prices type sizes) = true
  /\ Forall2 (fun old new =>
                ALaCarte.size_price new
                = prices (ALaCarte.size_name old ++ " "
                            ++ ALaCarte.capitalized type)%string)
             sizes (fst (ALaCarte.fetchPricesOf prices type sizes)).
Proof.
  intros Hp. induction sizes as [|sz rest [IH1 IH2]]; simpl.
  - split; constructor.
  - destruct (prices _) as [p|] eqn:E; [|now apply Hp in E].
    simpl. split; [exact IH1|]. constructor; [now rewrite E | exact IH2].
Qed.

Lemma fetchPricesOf_rejected (prices : string -> option Q)
      (type : ALaCarte.ItemType) (sizes : list ALaCarte.SizeOption) :
  In None (map (fun sz => prices (ALaCarte.size_name sz ++ " "
                                    ++ ALaCarte.capitalized type)%string)
               sizes) ->
  snd (ALaCarte.fetchPricesOf prices type sizes) = false.
Proof.
  induction sizes as [|sz rest IH]; simpl; [contradiction|].
  destruct (prices _) as [p|] eqn:E; simpl; [|reflexivity].
  intros [H | H]; [discriminate | now apply IH].
Qed.

(** X19: [fetchItemPrices] never changes the name or the base item id of
    a size; and when every price lookup is answered, each side size gets
    the price of "<size> Side" and each entree size the price of
    "<size> Entree", and nothing is logged. *)
Theorem fetchItemPrices_answered
        (prices : string -> option Q) (st : ALaCarte.State) :
  (forall n, prices n <> None) ->
  let st' := fst (ALaCarte.fetchItemPrices prices st) in
  snd (ALaCarte.fetchItemPrices prices st) = []
  /\ Forall2 (fun old new =>
                ALaCarte.size_name new = ALaCarte.size_name old
                /\ ALaCarte.size_baseItemID new = ALaCarte.size_baseItemID old
                /\ ALaCarte.size_price new
                   = prices (ALaCarte.size_name old ++ " Side")%string)
             (ALaCarte.sizeOptions_side st) (ALaCarte.sizeOptions_side st')
  /\ Forall2 (fun old new =>
                ALaCarte.size_name new = ALaCarte.size_name old
                /\ ALaCarte.size_baseItemID new = ALaCarte.size_baseItemID old
                /\ ALaCarte.size_price new
                   = prices (ALaCarte.size_name old ++ " Entree")%string)
             (ALaCarte.sizeOptions_entree st) (ALaCarte.sizeOptions_entree st').
Proof.
  intros Hp. cbv zeta. unfold ALaCarte.fetchItemPrices.
  destruct (@fetchPricesOf_answered prices ALaCarte.side
                                    (ALaCarte.sizeOptions_side st) Hp)
    as [Hs1 Hs2].
  destruct (@fetchPricesOf_answered prices ALaCarte.entree
                                    (ALaCarte.sizeOptions_entree st) Hp)
    as [He1 He2].
  rewrite Hs1, He1. simpl. split; [reflexivity|].
  assert (Hgen : forall type sizes,
             Forall2 (fun old new =>
                        ALaCarte.size_price new
                        = prices (ALaCarte.size_name old ++ " "
                                    ++ ALaCarte.capitalized type)%string)
                     sizes (fst (ALaCarte.fetchPricesOf prices type sizes)) ->
             Forall2 (fun old new =>
                        ALaCarte.size_name new = ALaCarte.size_name old
                        /\ ALaCarte.size_baseItemID new
                           = ALaCarte.size_baseItemID old
                        /\ ALaCarte.size_price new
                           = prices (ALaCarte.size_name old ++ " "
                                       ++ ALaCarte.capitalized type)%string)
                     sizes (fst (ALaCarte.fetchPricesOf prices type sizes))).
  { intros type sizes. induction sizes as [|sz rest IH]; simpl.
    - constructor.
    - destruct (prices _) as [p|] eqn:E; [|now apply Hp in E].
      simpl. intros H. inversion H; subst.
      constructor; [repeat split; assumption | now apply IH]. }
  split; [exact (Hgen ALaCarte.side _ Hs2) | exact (Hgen ALaCarte.entree _ He2)].
Qed.

Lemma fetchItemPrices_answered_witness :
  let prices := fun n : string =>
                  Some (inject_Z (Z.of_nat (String.length n))) in
  let st' := fst (ALaCarte.fetchItemPrices prices ALaCarte.data) in
  snd (ALaCarte.fetchItemPrices prices ALaCarte.data) = []
  /\ map ALaCarte.size_price (ALaCarte.sizeOptions_side st')
     = [Some (inject_Z 11); Some (inject_Z 10)].
Proof.
  intros prices st'.
  destruct (@fetchItemPrices_answered prices ALaCarte.data) as (H & _ & _).
  - intros n. discriminate.
  - split; [exact H | reflexivity].
Defined.

(** X20: when the price lookup of a side size is rejected,
    [fetchItemPrices] logs the error and stops: no entree size is touched,
    the names and base item ids of the side sizes are kept, and the
    selections are unchanged. *)
Theorem fetchItemPrices_side_rejected
        (prices : string -> option Q) (st : ALaCarte.State) :
  In None (map (fun sz => prices (ALaCarte.size_name sz ++ " Side")%string)
               (ALaCarte.sizeOptions_side st)) ->
  let st' := fst (ALaCarte.fetchItemPrices prices st) in
  ALaCarte.sizeOptions_entree st' = ALaCarte.sizeOptions_entree st
  /\ map ALaCarte.size_name (ALaCarte.sizeOptions_side st')
     = map ALaCarte.size_name (ALaCarte.sizeOptions_side st)
  /\ map ALaCarte.size_baseItemID (ALaCarte.sizeOptions_side st')
     = map ALaCarte.size_baseItemID (ALaCarte.sizeOptions_side st)
  /\ ALaCarte.selectedSides st' = ALaCarte.selectedSides st
  /\ ALaCarte.selectedEntrees st' = ALaCarte.selectedEntrees st
  /\ snd (ALaCarte.fetchItemPrices prices st)
     = [ConsoleError "Error fetching item prices:"].
Proof.
  intros H. cbv zeta. unfold ALaCarte.fetchItemPrices.
  rewrite (@fetchPricesOf_rejected prices ALaCarte.side _ H). simpl.
  destruct (fetchPricesOf_names prices ALaCarte.side
                                (ALaCarte.sizeOptions_side st)) as [H1 H2].
  repeat split; assumption.
Qed.

Lemma fetchItemPrices_side_rejected_witness :
  let prices := fun n : string =>
                  if String.eqb n "Large Side" then None else Some 4%Q in
  let st' := fst (ALaCarte.fetchItemPrices prices ALaCarte.data) in
  ALaCarte.sizeOptions_entree st' = ALaCarte.sizeOptions_entree ALaCarte.data
  /\ map ALaCarte.size_price (ALaCarte.sizeOptions_side st')
     = [Some 4%Q; None].
Proof.
  intros prices st'.
  destruct (@fetchItemPrices_side_rejected prices ALaCarte.data) as (H & _).
  - simpl. right. left. reflexivity.
  - split; [exact H | reflexivity].
Defined.

(** ** completeOrder: failures and completion *)

Lemma randomMinutes_attained_witness :
  exists m k,
    Binary64.is_draw m k = true /\ Binary64.randomMinutes m k = 8%Z.
Proof.
  apply (@randomMinutes_attained 8%Z). lia.
Defined.

(** X22: when the latest-id read or the transaction post is rejected, the
    run stops before any line is sent: no [transactionitems] post and no
    inventory decrement is requested, and the completion flag and the ready
    time are left as they were. *)
Theorem completeOrder_stops_on_rejection (w : App.World) (st : App.State) :
  App.latestID w = None \/ App.transactionAccepted w = false ->
  let o := App.completeOrder w st in
  filter App.isLinePost (App.requests o) = []
  /\ filter App.isItemTypeDecrement (App.requests o) = []
  /\ filter App.isFoodDecrement (App.requests o) = []
  /\ App.isOrderComplete (App.final o) = App.isOrderComplete st
  /\ App.showUserInfo (App.final o) = App.showUserInfo st
  /\ App.readyTime (App.final o) = App.readyTime st.
Proof.
  intros H. cbv zeta. unfold App.completeOrder.
  destruct (App.latestID w) as [id|].
  - destruct H as [H | H]; [discriminate|]. rewrite H. simpl.
    destruct (App.payment_selected (App.selectedPayment st));
      simpl; repeat split.
  - simpl. repeat split.
Qed.

Lemma completeOrder_stops_on_rejection_witness :
  let w := App.mkWorld (Some 41%Z) false (fun _ => true) (fun _ => 0%Z)
                       (fun _ => (0%Z, 1%Z)) in
  let entry := mkEntry (Some 3%Z) 7 8 9 0 in
  let line := mkLine "Plate (Chow Mein + Orange Chicken, Beijing Beef)"
                     (Some (98 # 10)%Q) entry (Some false) None in
  let st := App.updatePaymentMethod (Some "Credit Card")
              (App.set_carts [line] [entry] (App.data (Some 1001%Z))) in
  filter App.isLinePost (App.requests (App.completeOrder w st)) = []
  /\ App.isOrderComplete (App.final (App.completeOrder w st)) = false.
Proof.
  intros w entry line st.
  destruct (@completeOrder_stops_on_rejection w st) as (H1 & _ & _ & H4 & _).
  - right. reflexivity.
  - split; [exact H1 | exact H4].
Defined.

(** X23: no run of [completeOrder] changes the cart lines, the transaction
    entries or the selected payment method: whether the order goes through
    or not, the cart is still there afterwards. *)
Theorem completeOrder_keeps_cart (w : App.World) (st : App.State) :
  let o := App.completeOrder w st in
  App.cartItems (App.final o) = App.cartItems st
  /\ App.transactionCart (App.final o) = App.transactionCart st
  /\ App.selectedPayment (App.final o) = App.selectedPayment st.
Proof.
  cbv zeta. unfold App.completeOrder.
  destruct (App.latestID w) as [id|]; [|now repeat split].
  simpl.
  destruct (App.payment_selected (App.selectedPayment st)); [|now repeat split].
  destruct (App.transactionAccepted w); [|now repeat split].
  simpl.
  destruct (settle_all_fields w (App.indexed (App.transactionCart st))
                              (App.set_transactionId (Some id) st))
    as (H1 & H2 & _ & H4).
  cbv zeta in *. rewrite H1, H2, H4. now repeat split.
Qed.

Lemma indexed_fst {A : Type} (l : list A) :
  map fst (App.indexed l) = seq 0 (List.length l).
Proof.
  unfold App.indexed. generalize 0%nat.
  induction l as [|x l IH]; intros n; simpl; [reflexivity | now rewrite IH].
Qed.

Lemma settle_all_complete (w : App.World) (A : Type) (l : list (nat * A))
      (st : App.State) :
  let st' := fold_left (fun s ie => App.settle w s (fst ie)) l st in
  App.isOrderComplete st'
  = App.isOrderComplete st || existsb (App.itemAccepted w) (map fst l)
  /\ App.showUserInfo st'
     = (if existsb (App.itemAccepted w) (map fst l) then false
        else App.showUserInfo st).
Proof.
  revert st; induction l as [|ie l IH]; intros st; simpl.
  - rewrite orb_false_r. now split.
  - destruct (IH (App.settle w st (fst ie))) as [H1 H2].
    cbv zeta in *. rewrite H1, H2. unfold App.settle.
    destruct (App.itemAccepted w (fst ie)); simpl.
    + rewrite orb_true_r. split; [reflexivity|].
      now destruct (existsb _ _).
    + now split.
Qed.

(** X24: in a run where the read is answered, a payment method is selected
    and the transaction post is accepted, the order is marked complete as
    soon as the [transactionitems] post of one entry is accepted, even if
    the posts of other entries are rejected; with an empty transaction
    cart, or when every post is rejected, the flag stays as it was although
    the transaction itself has been stored. *)
Theorem completeOrder_completion_flag
        (w : App.World) (st : App.State) (id : Z) :
  App.latestID w = Some id ->
  App.payment_selected (App.selectedPayment st) = true ->
  App.transactionAccepted w = true ->
  let o := App.completeOrder w st in
  let some_accepted :=
    existsb (App.itemAccepted w)
            (seq 0 (List.length (App.transactionCart st))) in
  App.isOrderComplete (App.final o) = App.isOrderComplete st || some_accepted
  /\ App.showUserInfo (App.final o)
     = (if some_accepted then false else App.showUserInfo st)
  /\ (App.transactionCart st = [] ->
      App.isOrderComplete (App.final o) = App.isOrderComplete st).
Proof.
  intros Hid Hp Ha. cbv zeta. unfold App.completeOrder.
  rewrite Hid. simpl. rewrite Hp, Ha. simpl.
  destruct (settle_all_complete w (App.indexed (App.transactionCart st))
                                (App.set_transactionId (Some id) st))
    as [H1 H2].
  cbv zeta in *. rewrite indexed_fst in H1, H2. simpl in H1, H2.
  rewrite H1, H2. split; [reflexivity|]. split; [reflexivity|].
  intros ->. simpl. apply orb_false_r.
Qed.

Lemma completeOrder_completion_flag_witness :
  let w := App.mkWorld (Some 41%Z) true (fun i => Nat.eqb i 1) (fun _ => 0%Z)
                       (fun _ => (0%Z, 1%Z)) in
  let e0 := mkEntry (Some 3%Z) 7 8 9 0 in
  let e1 := mkEntry (Some 10%Z) 5 0 0 0 in
  let st := App.updatePaymentMethod (Some "Credit Card")
              (App.set_carts [] [e0; e1] (App.data (Some 1001%Z))) in
  App.isOrderComplete (App.final (App.completeOrder w st)) = true.
Proof.
  intros w e0 e1 st.
  destruct (@completeOrder_completion_flag w st 41%Z eq_refl eq_refl eq_refl)
    as (H & _ & _).
  exact H.
Defined.

Lemma settle_all_readyTime (w : App.World) (A : Type) (l : list (nat * A))
      (st : App.State) :
  (forall i, Binary64.is_draw (fst (App.draw w i)) (snd (App.draw w i)) = true) ->
  let st' := fold_left (fun s ie => App.settle w s (fst ie)) l st in
  if existsb (App.itemAccepted w) (map fst l)
  then exists i minutes,
      In i (map fst l) /\ App.itemAccepted w i = true
      /\ (5 <= minutes <= 10)%Z
      /\ App.readyTime st' = Some (App.clock w i + 60000 * minutes)%Z
  else App.readyTime st' = App.readyTime st.
Proof.
  intros Hd. revert st; induction l as [|ie l IH]; intros st; simpl.
  - reflexivity.
  - specialize (IH (App.settle w st (fst ie))). cbv zeta in IH.
    destruct (existsb (App.itemAccepted w) (map fst l)) eqn:El.
    + rewrite orb_true_r. destruct IH as (i & minutes & Hi & Ha & Hm & Hr).
      exists i, minutes. repeat split; auto; lia.
    + rewrite orb_false_r.
      assert (Hs : App.readyTime (App.settle w st (fst ie))
                   = if App.itemAccepted w (fst ie)
                     then Some (App.calculateReadyTime
                                  (App.clock w (fst ie))
                                  (fst (App.draw w (fst ie)))
                                  (snd (App.draw w (fst ie))))
                     else App.readyTime st).
      { unfold App.settle. now destruct (App.itemAccepted w (fst ie)). }
      rewrite IH, Hs.
      destruct (App.itemAccepted w (fst ie)) eqn:Ea; [|reflexivity].
      exists (fst ie),
        (Binary64.randomMinutes (fst (App.draw w (fst ie)))
                                (snd (App.draw w (fst ie)))).
      split; [now left|]. split; [exact Ea|].
      split; [apply randomMinutes_range, Hd | reflexivity].
Qed.

(** X25: whatever the world answers, as long as its random draws are
    values of [Math.random()], the ready time after a run is either the one
    before the run, or the clock read when the post of some accepted entry
    settled plus a whole number of minutes between 5 and 10; and it is of
    the second kind whenever some entry of an accepted transaction is
    accepted. *)
Theorem completeOrder_readyTime (w : App.World) (st : App.State) :
  (forall i, Binary64.is_draw (fst (App.draw w i)) (snd (App.draw w i)) = true) ->
  let o := App.completeOrder w st in
  let set_by_line :=
    exists i minutes,
      (i < List.length (App.transactionCart st))%nat
      /\ App.itemAccepted w i = true
      /\ (5 <= minutes <= 10)%Z
      /\ App.readyTime (App.final o)
         = Some (App.clock w i + 60000 * minutes)%Z in
  (App.readyTime (App.final o) = App.readyTime st \/ set_by_line)
  /\ (App.latestID w <> None ->
      App.payment_selected (App.selectedPayment st) = true ->
      App.transactionAccepted w = true ->
      existsb (App.itemAccepted w)
              (seq 0 (List.length (App.transactionCart st))) = true ->
      set_by_line).
Proof.
  intros Hd. cbv zeta.
  pose proof (@settle_all_readyTime w _ (App.indexed (App.transactionCart st))
                (App.set_transactionId
                   (match App.latestID w with Some id => Some id | None => None end)
                   st) Hd) as H.
  cbv zeta in H. rewrite indexed_fst in H.
  unfold App.completeOrder.
  destruct (App.latestID w) as [id|]; simpl.
  - destruct (App.payment_selected (App.selectedPayment st)); simpl.
    + destruct (App.transactionAccepted w); simpl.
      * destruct (existsb _ _).
        -- destruct H as (i & minutes & Hi & Ha & Hm & Hr).
           apply in_seq in Hi.
           assert (Hex : exists i minutes,
                      (i < List.length (App.transactionCart st))%nat
                      /\ App.itemAccepted w i = true
                      /\ (5 <= minutes <= 10)%Z
                      /\ App.readyTime
                           (fold_left (fun s ie => App.settle w s (fst ie))
                              (App.indexed (App.transactionCart st))
                              (App.set_transactionId (Some id) st))
                         = Some (App.clock w i + 60000 * minutes)%Z).
           { exists i, minutes. repeat split; auto; lia. }
           split; [right; exact Hex | intros; exact Hex].
        -- split; [left; exact H | intros; discriminate].
      * split; [now left | intros; discriminate].
    + split; [now left | intros; discriminate].
  - split; [now left | intros Hn; now contradiction Hn].
Qed.

Lemma completeOrder_readyTime_witness :
  let w := App.mkWorld (Some 41%Z) true (fun _ => true)
                       (fun _ => 1700000000000%Z) (fun _ => (3%Z, 3%Z)) in
  let st := App.updatePaymentMethod (Some "Credit Card")
              (App.set_carts [] [mkEntry (Some 3%Z) 7 8 9 0]
                             (App.data (Some 1001%Z))) in
  exists i minutes,
    (i < 1)%nat
    /\ (5 <= minutes <= 10)%Z
    /\ App.readyTime (App.final (App.completeOrder w st))
       = Some (1700000000000 + 60000 * minutes)%Z.
Proof.
  intros w st.
  destruct (@completeOrder_readyTime w st) as [_ H].
  - intros i. reflexivity.
  - destruct H as (i & minutes & Hi & _ & Hm & Hr); try reflexivity.
    + simpl. discriminate.
    + exists i, minutes. split; [exact Hi|]. split; [exact Hm | exact Hr].
Defined.

(** X26: once the transaction post is accepted, exactly one
    [transactionitems] post is sent per transaction entry, in order, and it
    carries the id read at the start, the base item id and the four food
    slots of that entry, zero slots included. *)
Theorem completeOrder_line_posts (w : App.World) (st : App.State) (id : Z) :
  App.latestID w = Some id ->
  App.payment_selected (App.selectedPayment st) = true ->
  App.transactionAccepted w = true ->
  filter App.isLinePost (App.requests (App.completeOrder w st))
  = map (fun e => App.PostTransactionItems id (baseItemID e) (food1 e)
                                           (food2 e) (food3 e) (food4 e))
        (App.transactionCart st).
Proof.
  intros Hid Hp Ha.
  rewrite (completeOrder_paid w st Hid Hp). cbv zeta. rewrite Ha.
  rewrite !filter_app, !filter_flat_map. simpl filter at 1.
  rewrite (flat_map_ext
             (fun ie => filter App.isLinePost (App.lineRequests id (snd ie)))
             (fun ie => [App.PostTransactionItems id (baseItemID (snd ie))
                           (food1 (snd ie)) (food2 (snd ie))
                           (food3 (snd ie)) (food4 (snd ie))]))
    by reflexivity.
  rewrite (flat_map_ext
             (fun ie => filter App.isLinePost
                               (App.settledRequests w (fst ie) (snd ie)))
             (fun _ => [])).
  - rewrite flat_map_nil, app_nil_r. simpl.
    rewrite flat_map_single.
    rewrite <- (indexed_snd (App.transactionCart st)) at 2.
    now rewrite map_map.
  - intros ie. unfold App.settledRequests.
    destruct (App.itemAccepted w (fst ie)); [|reflexivity].
    induction (App.foodids (snd ie)) as [|f fs IH]; simpl; auto.
Qed.

Lemma completeOrder_line_posts_witness :
  let w := App.mkWorld (Some 41%Z) true (fun _ => false) (fun _ => 0%Z)
                       (fun _ => (0%Z, 1%Z)) in
  let st := App.updatePaymentMethod (Some "Credit Card")
              (App.set_carts [] [mkEntry (Some 3%Z) 7 8 9 0]
                             (App.data (Some 1001%Z))) in
  filter App.isLinePost (App.requests (App.completeOrder w st))
  = [App.PostTransactionItems 41 (Some 3%Z) 7 8 9 0].
Proof.
  intros w st.
  apply (@completeOrder_line_posts w st 41%Z); reflexivity.
Defined.
